(** * Quiz Master: availability, attempt lifecycle, scoring, maintenance jobs

    A shallow embedding of the attempt engine of the quiz application
    (models.py, main.py, tasks.py), of its user administration, mail and
    reminder jobs and of the rate limiter of cache.py, with the properties
    of its specification and further properties read off the code.

    Modelling conventions.
    - A table is the list of its rows, in primary-key (insertion) order;
      [Query.get] is a search by [id], [filter_by(...).all()] a [filter],
      [.first()] the head of the filtered list.
    - A naive [datetime] is the integer number of microseconds since
      0001-01-01T00:00:00 of the proleptic Gregorian calendar: this is the
      order Python compares datetimes by, and [timedelta] arithmetic is
      integer arithmetic on it.
    - A [Float] column holds an exact rational ([Q]); binary64 rounding is
      not modelled.  Nullable columns are [option]s.
    - A request handler is a function from the database, the browser
      session, the logged-in user and the clock to an [outcome]: the new
      database and session, the flashed messages and the HTTP response. *)

From Stdlib Require Import ZArith QArith Qminmax Bool List Lia.
From Stdlib Require Import Sorted Permutation.
From Stdlib Require String.
Import ListNotations.

Local Open Scope Z_scope.

(** ** Dates and durations *)

Definition datetime := Z.
Definition timedelta := Z.

Definition SECOND : timedelta := 1000000.
Definition MINUTE : timedelta := 60 * SECOND.
Definition HOUR : timedelta := 3600 * SECOND.
Definition DAY : timedelta := 24 * HOUR.

(** [timedelta(hours=h)] *)
Definition timedelta_hours (h : Z) : timedelta := h * HOUR.

(** [timedelta.days] and [timedelta.seconds] of a normalised duration. *)
Definition td_days (d : timedelta) : Z := d / DAY.
Definition td_seconds (d : timedelta) : Z := (d mod DAY) / SECOND.

(** The calendar arithmetic of Python's [datetime] module
    ([_is_leap], [_days_before_year], [_days_in_month],
    [_days_before_month], [_ymd2ord], [_ord2ymd]). *)
Module Calendar.

Definition is_leap (year : Z) : bool :=
  (year mod 4 =? 0) && (negb (year mod 100 =? 0) || (year mod 400 =? 0)).

Definition days_before_year (year : Z) : Z :=
  let y := year - 1 in y * 365 + y / 4 - y / 100 + y / 400.

Definition DAYS_IN_MONTH (month : Z) : Z :=
  match month with
  | 1 => 31 | 2 => 28 | 3 => 31 | 4 => 30 | 5 => 31 | 6 => 30
  | 7 => 31 | 8 => 31 | 9 => 30 | 10 => 31 | 11 => 30 | 12 => 31
  | _ => -1
  end.

Definition DAYS_BEFORE_MONTH (month : Z) : Z :=
  match month with
  | 1 => 0 | 2 => 31 | 3 => 59 | 4 => 90 | 5 => 120 | 6 => 151
  | 7 => 181 | 8 => 212 | 9 => 243 | 10 => 273 | 11 => 304 | 12 => 334
  | _ => -1
  end.

Definition days_in_month (year month : Z) : Z :=
  if (month =? 2) && is_leap year then 29 else DAYS_IN_MONTH month.

Definition days_before_month (year month : Z) : Z :=
  DAYS_BEFORE_MONTH month + (if (2 <? month) && is_leap year then 1 else 0).

Definition ymd2ord (year month day : Z) : Z :=
  days_before_year year + days_before_month year month + day.

Definition DI400Y : Z := Eval cbv in days_before_year 401.
Definition DI100Y : Z := Eval cbv in days_before_year 101.
Definition DI4Y : Z := Eval cbv in days_before_year 5.

(** [_ord2ymd]: ordinal (1 = 0001-01-01) to (year, month, day). *)
Definition ord2ymd (ordinal : Z) : Z * Z * Z :=
  let n := ordinal - 1 in
  let n400 := n / DI400Y in
  let n := n mod DI400Y in
  let year := n400 * 400 + 1 in
  let n100 := n / DI100Y in
  let n := n mod DI100Y in
  let n4 := n / DI4Y in
  let n := n mod DI4Y in
  let n1 := n / 365 in
  let n := n mod 365 in
  let year := year + n100 * 100 + n4 * 4 + n1 in
  if (n1 =? 4) || (n100 =? 4) then (year - 1, 12, 31)
  else
    let leapyear := (n1 =? 3) && (negb (n4 =? 24) || (n100 =? 3)) in
    let month := Z.shiftr (n + 50) 5 in
    let preceding :=
      DAYS_BEFORE_MONTH month + (if (2 <? month) && leapyear then 1 else 0) in
    if n <? preceding then
      let month := month - 1 in
      let preceding :=
        preceding
        - (DAYS_IN_MONTH month + (if (month =? 2) && leapyear then 1 else 0)) in
      (year, month, n - preceding + 1)
    else (year, month, n - preceding + 1).

End Calendar.

(** [datetime(year, month, day)]: midnight of a calendar day; [None] is the
    [ValueError] of an out-of-range month or day. *)
Definition mk_datetime (year month day : Z) : option datetime :=
  if (1 <=? year) && (year <=? 9999) && (1 <=? month) && (month <=? 12)
     && (1 <=? day) && (day <=? Calendar.days_in_month year month)
  then Some ((Calendar.ymd2ord year month day - 1) * DAY)
  else None.

(** The full constructor [datetime(y, m, d, hh, mm, ss)], used for test
    instants. *)
Definition mk_datetime_hms (year month day hh mm ss : Z) : option datetime :=
  match mk_datetime year month day with
  | Some d => Some (d + hh * HOUR + mm * MINUTE + ss * SECOND)
  | None => None
  end.

Definition dt_ordinal (t : datetime) : Z := t / DAY + 1.
Definition dt_year (t : datetime) : Z := fst (fst (Calendar.ord2ymd (dt_ordinal t))).
Definition dt_month (t : datetime) : Z := snd (fst (Calendar.ord2ymd (dt_ordinal t))).
Definition dt_day (t : datetime) : Z := snd (Calendar.ord2ymd (dt_ordinal t)).

(** ** The persistence schema (models.py) *)

Module User.
Record t := mk { id : Z; is_admin : bool }.
End User.

Module Quiz.

Record t := mk {
  id : Z;
  time_limit : option Z;
  pass_percentage : Q;
  is_scheduled : bool;
  start_datetime : option datetime;
  end_datetime : option datetime
}.

(** [Quiz.is_available], with [now = datetime.utcnow()]. *)
Definition is_available (self : t) (now : datetime) : bool :=
  if negb (is_scheduled self) then true
  else if match start_datetime self with
          | Some s => now <? s
          | None => false
          end then false
  else if match end_datetime self with
          | Some e => e <? now
          | None => false
          end then false
  else true.

(** [Quiz.registration_open] *)
Definition registration_open (self : t) : bool := true.

(** [Quiz.time_until_start] *)
Definition time_until_start (self : t) (now : datetime) : option timedelta :=
  if negb (is_scheduled self) then None
  else match start_datetime self with
       | None => None
       | Some s => if s <=? now then None else Some (s - now)
       end.

(** [Quiz.time_until_end] *)
Definition time_until_end (self : t) (now : datetime) : option timedelta :=
  if negb (is_scheduled self) then None
  else match end_datetime self with
       | None => None
       | Some e => if e <=? now then None else Some (e - now)
       end.

End Quiz.

Module Question.
Record t := mk { id : Z; quiz_id : Z }.
End Question.

Module Option.
Record t := mk { id : Z; question_id : Z; is_correct : bool }.
End Option.

Module QuizAttempt.

Record t := mk {
  id : Z;
  user_id : Z;
  quiz_id : Z;
  date_taken : datetime;
  score : option Q;
  is_completed : bool
}.

(** [QuizAttempt.passed]; [quiz] is [self.quiz]. *)
Definition passed (self : t) (quiz : Quiz.t) : bool :=
  match score self with
  | None => false
  | Some s => Qle_bool (Quiz.pass_percentage quiz) s
  end.

Definition set_score (self : t) (s : option Q) : t :=
  mk (id self) (user_id self) (quiz_id self) (date_taken self) s
     (is_completed self).

Definition set_is_completed (self : t) (b : bool) : t :=
  mk (id self) (user_id self) (quiz_id self) (date_taken self) (score self) b.

End QuizAttempt.

Module QuizResponse.
Record t := mk { id : Z; attempt_id : Z; question_id : Z; option_id : Z }.
End QuizResponse.

Record DB := mkDB {
  users : list User.t;
  quizzes : list Quiz.t;
  questions : list Question.t;
  options : list Option.t;
  quiz_attempts : list QuizAttempt.t;
  quiz_responses : list QuizResponse.t
}.

(** ** Queries *)

(** SQLite assigns [max(id) + 1] to a row inserted without an explicit key. *)
Definition next_id {A : Type} (key : A -> Z) (rows : list A) : Z :=
  fold_right (fun r m => Z.max (key r) m) 0 rows + 1.

Definition User_get (db : DB) (user_id : Z) : option User.t :=
  find (fun u => User.id u =? user_id) (users db).

Definition Quiz_get (db : DB) (quiz_id : Z) : option Quiz.t :=
  find (fun q => Quiz.id q =? quiz_id) (quizzes db).

Definition Option_get (db : DB) (option_id : Z) : option Option.t :=
  find (fun o => Option.id o =? option_id) (options db).

Definition QuizAttempt_get (db : DB) (attempt_id : Z) : option QuizAttempt.t :=
  find (fun a => QuizAttempt.id a =? attempt_id) (quiz_attempts db).

(** The relationship [quiz.questions]. *)
Definition Quiz_questions (db : DB) (quiz : Quiz.t) : list Question.t :=
  filter (fun x => Question.quiz_id x =? Quiz.id quiz) (questions db).

(** [QuizAttempt.query.filter_by(user_id=.., quiz_id=.., is_completed=..)] *)
Definition attempts_by (user_id quiz_id : Z) (is_completed : bool)
    (rows : list QuizAttempt.t) : list QuizAttempt.t :=
  filter (fun a => (QuizAttempt.user_id a =? user_id)
                   && (QuizAttempt.quiz_id a =? quiz_id)
                   && Bool.eqb (QuizAttempt.is_completed a) is_completed) rows.

Definition set_quiz_attempts (db : DB) (rows : list QuizAttempt.t) : DB :=
  mkDB (users db) (quizzes db) (questions db) (options db) rows
       (quiz_responses db).

Definition set_quiz_responses (db : DB) (rows : list QuizResponse.t) : DB :=
  mkDB (users db) (quizzes db) (questions db) (options db) (quiz_attempts db)
       rows.

(** Writing the changed columns of the attempt with key [attempt_id]
    ([UPDATE quiz_attempts SET ... WHERE id = ?]). *)
Definition update_attempt (attempt_id : Z) (f : QuizAttempt.t -> QuizAttempt.t)
    (db : DB) : DB :=
  set_quiz_attempts db
    (map (fun a => if QuizAttempt.id a =? attempt_id then f a else a)
         (quiz_attempts db)).

Definition mem (x : Z) (l : list Z) : bool := existsb (Z.eqb x) l.

(** [db.session.delete(attempt)] for each of [doomed], then commit: the
    attempts go, and with them (relationship cascade
    ["all, delete-orphan"]) the responses that belong to them. *)
Definition delete_attempts (doomed : list QuizAttempt.t) (db : DB) : DB :=
  let ids := map QuizAttempt.id doomed in
  mkDB (users db) (quizzes db) (questions db) (options db)
       (filter (fun a => negb (mem (QuizAttempt.id a) ids)) (quiz_attempts db))
       (filter (fun r => negb (mem (QuizResponse.attempt_id r) ids))
               (quiz_responses db)).

(** ** The web layer (main.py) *)

Inductive category := danger | warning | success.

(** The flashed texts, one constructor per message of the handlers. *)
Inductive message :=
| Admins_cannot_attempt_quizzes
| Scheduled_to_start_in (days hours minutes : Z)
| This_quiz_has_ended
| This_quiz_is_not_available
| Registration_has_closed
| Already_completed_cannot_retake
| This_quiz_has_no_questions_yet
| Left_incomplete_recorded_as_submission
| Invalid_quiz_attempt
| Quiz_submitted (score_percentage : Q).

Definition flash : Type := message * category.

Inductive endpoint :=
| user_dashboard
| quiz_list
| quiz_results (attempt_id : Z).

Inductive template :=
| take_quiz_html (quiz : Quiz.t)
| attempt_quiz_html (quiz : Quiz.t) (attempt : QuizAttempt.t).

(** [Abort404] is [get_or_404] failing; [InternalServerError] an uncaught
    exception, which leaves the transaction uncommitted. *)
Inductive response :=
| Redirect (target : endpoint)
| Render (page : template)
| Abort404
| InternalServerError.

Record Session := mkSession {
  current_attempt_id : option Z;
  time_remaining : option Z
}.

Record outcome := mkOutcome {
  db_after : DB;
  session_after : Session;
  flashed : list flash;
  resp : response
}.

(** The block both [take_quiz] and [start_quiz_attempt] run when the quiz is
    not available. *)
Definition unavailable_flash (quiz : Quiz.t) (now : datetime) : flash :=
  if Quiz.is_scheduled quiz then
    match Quiz.time_until_start quiz now with
    | Some d =>
        if d =? 0 then (This_quiz_has_ended, warning)
        else (Scheduled_to_start_in (td_days d) (td_seconds d / 3600)
                                    ((td_seconds d mod 3600) / 60), warning)
    | None => (This_quiz_has_ended, warning)
    end
  else (This_quiz_is_not_available, warning).

(** [GET /user/quiz/<quiz_id>]: the quiz info page. *)
Definition take_quiz (db : DB) (session : Session) (current_user : User.t)
    (now : datetime) (quiz_id : Z) : outcome :=
  if User.is_admin current_user then
    mkOutcome db session [(Admins_cannot_attempt_quizzes, danger)]
              (Redirect user_dashboard)
  else
  match Quiz_get db quiz_id with
  | None => mkOutcome db session [] Abort404
  | Some quiz =>
  if negb (Quiz.is_available quiz now) then
    mkOutcome db session [unavailable_flash quiz now] (Redirect quiz_list)
  else if negb (Quiz.registration_open quiz) then
    mkOutcome db session [(Registration_has_closed, warning)]
              (Redirect quiz_list)
  else
  match attempts_by (User.id current_user) quiz_id true (quiz_attempts db) with
  | previous_attempt :: _ =>
      mkOutcome db session [(Already_completed_cannot_retake, warning)]
                (Redirect (quiz_results (QuizAttempt.id previous_attempt)))
  | [] =>
  match Quiz_questions db quiz with
  | [] => mkOutcome db session [(This_quiz_has_no_questions_yet, warning)]
                    (Redirect quiz_list)
  | _ :: _ =>
  match attempts_by (User.id current_user) quiz_id false (quiz_attempts db) with
  | incomplete_attempt :: _ =>
      mkOutcome
        (update_attempt (QuizAttempt.id incomplete_attempt)
           (fun a => QuizAttempt.set_score
                       (QuizAttempt.set_is_completed a true) (Some 0%Q)) db)
        session
        [(Left_incomplete_recorded_as_submission, warning)]
        (Render (take_quiz_html quiz))
  | [] => mkOutcome db session [] (Render (take_quiz_html quiz))
  end end end end.

(** [GET /user/quiz/<quiz_id>/start].  [now] is [datetime.utcnow()], read by
    the availability check; [local_now] is [datetime.now()], stored as the
    attempt's [date_taken]. *)
Definition start_quiz_attempt (db : DB) (session : Session)
    (current_user : User.t) (now local_now : datetime) (quiz_id : Z)
    : outcome :=
  if User.is_admin current_user then
    mkOutcome db session [(Admins_cannot_attempt_quizzes, danger)]
              (Redirect user_dashboard)
  else
  match Quiz_get db quiz_id with
  | None => mkOutcome db session [] Abort404
  | Some quiz =>
  if negb (Quiz.is_available quiz now) then
    mkOutcome db session [unavailable_flash quiz now] (Redirect quiz_list)
  else if negb (Quiz.registration_open quiz) then
    mkOutcome db session [(Registration_has_closed, warning)]
              (Redirect quiz_list)
  else
  match attempts_by (User.id current_user) quiz_id true (quiz_attempts db) with
  | previous_attempt :: _ =>
      mkOutcome db session [(Already_completed_cannot_retake, warning)]
                (Redirect (quiz_results (QuizAttempt.id previous_attempt)))
  | [] =>
      let incomplete_attempts :=
        attempts_by (User.id current_user) quiz_id false (quiz_attempts db) in
      let db1 := delete_attempts incomplete_attempts db in
      let attempt :=
        QuizAttempt.mk (next_id QuizAttempt.id (quiz_attempts db1))
                       (User.id current_user) quiz_id local_now None false in
      let db2 := set_quiz_attempts db1 (quiz_attempts db1 ++ [attempt]) in
      mkOutcome db2
        (mkSession (Some (QuizAttempt.id attempt))
                   (match Quiz.time_limit quiz with
                    | Some l => if l =? 0 then None else Some (l * 60)
                    | None => None
                    end))
        []
        (Render (attempt_quiz_html quiz attempt))
  end end.

(** What [request.form.get('question_<id>')] holds for a question, as far as
    [submit_quiz] distinguishes: no such field, an empty string, a text that
    [int()] rejects, or a numeral. *)
Inductive field :=
| Absent
| Blank
| Malformed
| Numeral (n : Z).

Definition form : Type := Z -> field.

(** A [QuizResponse] added to the session, before the flush gives it a key. *)
Definition pending : Type := Z * Z * Z.

(** The scoring loop of [submit_quiz] over [quiz.questions]: the responses
    added to the session so far and [correct_answers]; [None] is an uncaught
    exception ([ValueError] of [int()], or [AttributeError] on the [None]
    that [Option.query.get] returns for an unknown key). *)
Fixpoint score_loop (db : DB) (request_form : form) (attempt_id : Z)
    (qs : list Question.t) (added : list pending) (correct_answers : Z)
    : option (list pending * Z) :=
  match qs with
  | [] => Some (added, correct_answers)
  | question :: rest =>
      match request_form (Question.id question) with
      | Absent | Blank =>
          score_loop db request_form attempt_id rest added correct_answers
      | Malformed => None
      | Numeral selected_option_id =>
          match Option_get db selected_option_id with
          | None => None
          | Some selected_option =>
              score_loop db request_form attempt_id rest
                (added ++ [(attempt_id, Question.id question,
                            Option.id selected_option)])
                (if Option.is_correct selected_option
                 then correct_answers + 1 else correct_answers)
          end
      end
  end.

(** The flush: pending responses become rows with consecutive fresh keys. *)
Fixpoint insert_responses (rows : list QuizResponse.t) (added : list pending)
    : list QuizResponse.t :=
  match added with
  | [] => rows
  | (a, q, o) :: rest =>
      insert_responses
        (rows ++ [QuizResponse.mk (next_id QuizResponse.id rows) a q o]) rest
  end.

(** [(correct_answers / total_questions) * 100 if total_questions > 0 else 0] *)
Definition score_percentage (correct_answers total_questions : Z) : Q :=
  if 0 <? total_questions
  then ((inject_Z correct_answers / inject_Z total_questions) * 100)%Q
  else 0%Q.

(** [POST /user/quiz/<quiz_id>/submit] *)
Definition submit_quiz (db : DB) (session : Session) (current_user : User.t)
    (request_form : form) (quiz_id : Z) : outcome :=
  if User.is_admin current_user then
    mkOutcome db session [(Admins_cannot_attempt_quizzes, danger)]
              (Redirect user_dashboard)
  else
  match Quiz_get db quiz_id with
  | None => mkOutcome db session [] Abort404
  | Some quiz =>
  match current_attempt_id session with
  | None => mkOutcome db session [(Invalid_quiz_attempt, danger)]
                      (Redirect quiz_list)
  | Some attempt_id =>
  if attempt_id =? 0 then
    mkOutcome db session [(Invalid_quiz_attempt, danger)] (Redirect quiz_list)
  else
  let attempt := QuizAttempt_get db attempt_id in
  let total_questions := Z.of_nat (length (Quiz_questions db quiz)) in
  match score_loop db request_form attempt_id (Quiz_questions db quiz) [] 0 with
  | None => mkOutcome db session [] InternalServerError
  | Some (added, correct_answers) =>
  match attempt with
  | None => mkOutcome db session [] InternalServerError
  | Some _ =>
      let score := score_percentage correct_answers total_questions in
      mkOutcome
        (update_attempt attempt_id
           (fun a => QuizAttempt.set_is_completed
                       (QuizAttempt.set_score a (Some score)) true)
           (set_quiz_responses db
              (insert_responses (quiz_responses db) added)))
        (mkSession None None)
        [(Quiz_submitted score, success)]
        (Redirect (quiz_results attempt_id))
  end end end end.

(** ** Background jobs (tasks.py) *)

(** [cleanup_incomplete_attempts_task]: the new database and the
    ['cleaned_attempts'] entry of the returned status (always ['success']
    here: nothing in the body can raise on a well-typed database). *)
Definition cleanup_incomplete_attempts_task (db : DB) (now : datetime)
    : DB * nat :=
  let cutoff_time := now - timedelta_hours 24 in
  let old_attempts :=
    filter (fun a => Bool.eqb (QuizAttempt.is_completed a) false
                     && (QuizAttempt.date_taken a <? cutoff_time))
           (quiz_attempts db) in
  let count := length old_attempts in
  (delete_attempts old_attempts db, count).

(** An argument of [Query.filter]: a SQL boolean expression over the row, or
    a plain Python value (here a [datetime]).  SQLAlchemy coerces every
    argument to a WHERE clause and raises [ArgumentError] on a value that is
    not a SQL expression. *)
Inductive criterion :=
| Clause (holds : QuizAttempt.t -> bool)
| PlainValue (v : datetime).

(** [QuizAttempt.query.filter(c1, c2, ...)]; [None] is the [ArgumentError]. *)
Fixpoint Query_filter (criteria : list criterion) (rows : list QuizAttempt.t)
    : option (list QuizAttempt.t) :=
  match criteria with
  | [] => Some rows
  | Clause holds :: rest => Query_filter rest (filter holds rows)
  | PlainValue _ :: _ => None
  end.

Fixpoint insert_desc (a : QuizAttempt.t) (l : list QuizAttempt.t)
    : list QuizAttempt.t :=
  match l with
  | [] => [a]
  | b :: l' =>
      if QuizAttempt.date_taken b <=? QuizAttempt.date_taken a
      then a :: b :: l'
      else b :: insert_desc a l'
  end.

(** [.order_by(QuizAttempt.date_taken.desc())] *)
Definition order_by_date_taken_desc (rows : list QuizAttempt.t)
    : list QuizAttempt.t :=
  fold_right insert_desc [] rows.

(** The three arguments the monthly report passes to [filter].  The third is
    the conditional expression
    [date_taken < datetime(y, m + 1, 1) if m < 12 else datetime(y + 1, 1, 1)]:
    a comparison clause when [m < 12], the bare [datetime] otherwise.
    [None] is a [ValueError] of the [datetime] constructor. *)
Definition monthly_criteria (user : User.t) (current_year current_month : Z)
    : option (list criterion) :=
  match mk_datetime current_year current_month 1 with
  | None => None
  | Some first_of_month =>
      match (if current_month <? 12
             then option_map
                    (fun d => Clause (fun a => QuizAttempt.date_taken a <? d))
                    (mk_datetime current_year (current_month + 1) 1)
             else option_map PlainValue (mk_datetime (current_year + 1) 1 1))
      with
      | None => None
      | Some third =>
          Some [Clause (fun a => QuizAttempt.user_id a =? User.id user);
                Clause (fun a => first_of_month <=? QuizAttempt.date_taken a);
                third]
      end
  end.

(** Python truthiness of a nullable float: [None] and [0.0] are false. *)
Definition truthy_score (s : option Q) : bool :=
  match s with
  | None => false
  | Some x => negb (Qeq_bool x 0)
  end.

(** [(attempt.score for attempt in attempts if attempt.score)] *)
Definition truthy_scores (attempts : list QuizAttempt.t) : list Q :=
  flat_map (fun a => match QuizAttempt.score a with
                     | Some x => if truthy_score (Some x) then [x] else []
                     | None => []
                     end) attempts.

Definition Qsum (l : list Q) : Q := fold_left Qplus l 0%Q.

(** [max(xs, default=0)] *)
Definition Qmax_default0 (l : list Q) : Q :=
  match l with
  | [] => 0%Q
  | x :: xs => fold_left Qmax xs x
  end.

(** The figures of the monthly report mail. *)
Record report := mkReport {
  total_attempts : Z;
  passed_attempts : Z;
  failed_attempts : Z;
  avg_score : Q;
  highest_score : Q;
  recent : list QuizAttempt.t
}.

(** The ['status'] of a task's result, with the ['attempts_count'] entry
    of a successful report.  (The ['avg_score'] entry of that result is read
    from a variable the per-subject loop rebinds, and is left out with the
    per-subject figures.) *)
Inductive task_status :=
| status_success (attempts_count : Z)
| status_no_data
| status_skipped
| status_error.

Definition attempt_passed (db : DB) (a : QuizAttempt.t) : bool :=
  match Quiz_get db (QuizAttempt.quiz_id a) with
  | Some quiz => QuizAttempt.passed a quiz
  | None => false
  end.

Definition has_quiz (db : DB) (a : QuizAttempt.t) : bool :=
  match Quiz_get db (QuizAttempt.quiz_id a) with
  | Some _ => true
  | None => false
  end.

(** [send_monthly_report_task(user_id)] at [now = datetime.utcnow()]: the
    returned status and the report mailed, if any.  Every exception is
    caught at the task boundary and becomes [status_error].  The per-subject
    breakdown reads [attempt.quiz.chapter.subject.name] of every attempt
    (an [AttributeError] if the quiz is gone); chapters and subjects are not
    modelled and the figures derived from them are left out.  Each of the
    five most recent attempts is printed with [f"{attempt.score:.1f}"], a
    [TypeError] on a null score.  Mail delivery is taken to succeed. *)
Definition send_monthly_report_task (db : DB) (now : datetime) (user_id : Z)
    : task_status * option report :=
  match User_get db user_id with
  | None => (status_error, None)
  | Some user =>
  let current_month := dt_month now in
  let current_year := dt_year now in
  match monthly_criteria user current_year current_month with
  | None => (status_error, None)
  | Some criteria =>
  match Query_filter criteria (quiz_attempts db) with
  | None => (status_error, None)
  | Some rows =>
  let attempts := order_by_date_taken_desc rows in
  match attempts with
  | [] => (status_no_data, None)
  | _ :: _ =>
      let total := Z.of_nat (length attempts) in
      if negb (forallb (has_quiz db) attempts) then (status_error, None)
      else
      let passed := Z.of_nat (length (filter (attempt_passed db) attempts)) in
      let failed := total - passed in
      let avg :=
        if 0 <? total
        then (Qsum (truthy_scores attempts) / inject_Z total)%Q else 0%Q in
      let highest := Qmax_default0 (truthy_scores attempts) in
      if existsb (fun a => match QuizAttempt.score a with
                           | None => true
                           | Some _ => false
                           end) (firstn 5 attempts)
      then (status_error, None)
      else (status_success total,
            Some (mkReport total passed failed avg highest
                           (firstn 5 attempts)))
  end end end end.

(** [send_monthly_reports], the daily scheduler entry: it acts on the first
    day of the month only, queueing one report task per non-admin user. *)
Definition send_monthly_reports (db : DB) (now : datetime)
    : task_status * list Z :=
  if dt_day now =? 1 then
    let user_ids :=
      map User.id (filter (fun u => negb (User.is_admin u)) (users db)) in
    (status_success (Z.of_nat (length user_ids)), user_ids)
  else (status_skipped, []).

(** ** The attempt engine as a transition system

    The operations that write the [quiz_attempts] table.  The administrative
    deletions (of a user, quiz, chapter or subject) only remove attempts,
    through cascades; they are covered by [step_delete], which removes an
    arbitrary set of attempts together with their responses.  The other
    administrative and registration handlers write users, quizzes, questions
    and options only: [step_catalogue] lets those tables change freely. *)

Inductive step : DB -> DB -> Prop :=
| step_take : forall db session current_user now quiz_id,
    step db (db_after (take_quiz db session current_user now quiz_id))
| step_start : forall db session current_user now local_now quiz_id,
    step db (db_after (start_quiz_attempt db session current_user now
                                          local_now quiz_id))
| step_submit : forall db session current_user request_form quiz_id,
    step db (db_after (submit_quiz db session current_user request_form
                                   quiz_id))
| step_cleanup : forall db now,
    step db (fst (cleanup_incomplete_attempts_task db now))
| step_delete : forall db doomed,
    step db (delete_attempts doomed db)
| step_catalogue : forall db us qz qs os,
    step db (mkDB us qz qs os (quiz_attempts db) (quiz_responses db)).

Inductive reachable (init : DB) : DB -> Prop :=
| reach_init : reachable init init
| reach_step : forall db db', reachable init db -> step db db' ->
                              reachable init db'.



(** ** The vocabulary of the properties *)

(** The scheduling window, with an absent bound open on its side. *)
Definition started (q : Quiz.t) (now : datetime) : Prop :=
  match Quiz.start_datetime q with
  | Some s => s <= now
  | None => True
  end.

Definition not_ended (q : Quiz.t) (now : datetime) : Prop :=
  match Quiz.end_datetime q with
  | Some e => now <= e
  | None => True
  end.

(** An incomplete attempt created strictly more than 24 hours before [now]. *)
Definition stale (now : datetime) (a : QuizAttempt.t) : Prop :=
  QuizAttempt.is_completed a = false /\
  24 * HOUR < now - QuizAttempt.date_taken a.



(** What a start request does to the attempts table when it gets past its
    guards: the incomplete attempts of the pair go, one fresh attempt comes. *)
Definition started_attempts (db : DB) (user_id quiz_id : Z)
    (local_now : datetime) : list QuizAttempt.t :=
  let kept :=
    quiz_attempts
      (delete_attempts (attempts_by user_id quiz_id false (quiz_attempts db))
                       db) in
  kept ++ [QuizAttempt.mk (next_id QuizAttempt.id kept) user_id quiz_id
                          local_now None false].

(** The submission's answer to a question, in the spec's words: the option
    id the form selects for it, if any. *)
Definition selected (request_form : form) (question : Question.t) : option Z :=
  match request_form (Question.id question) with
  | Numeral n => Some n
  | Absent | Blank | Malformed => None
  end.

(** A question counts as correct when an option is selected for it and the
    option row of that id has [is_correct = true]. *)
Definition counts_correct (db : DB) (request_form : form)
    (question : Question.t) : bool :=
  match selected request_form question with
  | Some n => match Option_get db n with
              | Some o => Option.is_correct o
              | None => false
              end
  | None => false
  end.

(** The response an answered question contributes; none when unanswered. *)
Definition contributed (request_form : form) (attempt_id : Z)
    (question : Question.t) : list pending :=
  match selected request_form question with
  | Some n => [(attempt_id, Question.id question, n)]
  | None => []
  end.

(** A form the handler can process: every field of a question of the quiz
    is missing, empty, or the id of an existing option. *)
Definition well_formed (db : DB) (request_form : form)
    (question : Question.t) : Prop :=
  match request_form (Question.id question) with
  | Absent | Blank => True
  | Malformed => False
  | Numeral n => exists o, Option_get db n = Some o
  end.

(** A response row without its key. *)
Definition columns (r : QuizResponse.t) : pending :=
  (QuizResponse.attempt_id r, QuizResponse.question_id r,
   QuizResponse.option_id r).

(** What the info page writes on an attempt left in progress:
    [is_completed = True], [score = 0]. *)
Definition abandon (a : QuizAttempt.t) : QuizAttempt.t :=
  QuizAttempt.set_score (QuizAttempt.set_is_completed a true) (Some 0%Q).

(** ** A sample catalogue *)

Module Sample.

Definition instant (year month day hh mm ss : Z) : datetime :=
  match mk_datetime_hms year month day hh mm ss with
  | Some t => t
  | None => 0
  end.

Definition admin : User.t := User.mk 1 true.
Definition alice : User.t := User.mk 2 false.

(** Quiz 1: four questions, always open.  Quiz 2: no question yet.
    Quiz 3: one question, scheduled for 10 November 2025, 9:00 to 17:00. *)
Definition algebra : Quiz.t := Quiz.mk 1 (Some 30) 50 false None None.
Definition draft : Quiz.t := Quiz.mk 2 None 50 false None None.
Definition exam : Quiz.t :=
  Quiz.mk 3 (Some 60) 50 true (Some (instant 2025 11 10 9 0 0))
          (Some (instant 2025 11 10 17 0 0)).

(** Question [k] has the options [2k - 1] (correct) and [2k] (wrong). *)
Definition catalogue : DB :=
  mkDB [admin; alice] [algebra; draft; exam]
       [Question.mk 1 1; Question.mk 2 1; Question.mk 3 1; Question.mk 4 1;
        Question.mk 5 3]
       [Option.mk 1 1 true; Option.mk 2 1 false;
        Option.mk 3 2 true; Option.mk 4 2 false;
        Option.mk 5 3 true; Option.mk 6 3 false;
        Option.mk 7 4 true; Option.mk 8 4 false;
        Option.mk 9 5 true; Option.mk 10 5 false]
       [] [].

Definition fresh : Session := mkSession None None.

(** Alice has started quiz 1 and answered nothing yet. *)
Definition in_progress : QuizAttempt.t :=
  QuizAttempt.mk 1 2 1 (instant 2025 11 3 10 0 0) None false.
Definition db_in_progress : DB := set_quiz_attempts catalogue [in_progress].
Definition taking : Session := mkSession (Some 1) (Some 1800).

(** Three right answers and a blank. *)
Definition three_of_four : form :=
  fun question_id =>
    match question_id with
    | 1 => Numeral 1
    | 2 => Numeral 3
    | 3 => Numeral 5
    | 4 => Blank
    | _ => Absent
    end.

(** Question 1 answered with option 9, the correct option of question 5. *)
Definition foreign : form :=
  fun question_id =>
    match question_id with
    | 1 => Numeral 9
    | _ => Absent
    end.

(** Alice sat the exam during its window. *)
Definition sat_exam : QuizAttempt.t :=
  QuizAttempt.mk 1 2 3 (instant 2025 11 10 9 30 0) (Some 100%Q) true.
Definition db_sat_exam : DB := set_quiz_attempts catalogue [sat_exam].

(** Alice completed quiz 1 on the morning of 1 December 2025. *)
Definition december_attempt : QuizAttempt.t :=
  QuizAttempt.mk 1 2 1 (instant 2025 12 1 8 0 0) (Some 80%Q) true.
Definition db_december : DB := set_quiz_attempts catalogue [december_attempt].

(** The same attempt a month earlier. *)
Definition november_attempt : QuizAttempt.t :=
  QuizAttempt.mk 1 2 1 (instant 2025 11 1 8 0 0) (Some 80%Q) true.
Definition db_november : DB := set_quiz_attempts catalogue [november_attempt].

End Sample.

(** Four attempts around the 24 hour mark, with two responses. *)
Definition stale_db (now : datetime) : DB :=
  set_quiz_responses
    (set_quiz_attempts Sample.catalogue
       [QuizAttempt.mk 1 2 1 (now - (24 * HOUR + SECOND)) None false;
        QuizAttempt.mk 2 2 2 (now - 24 * HOUR) None false;
        QuizAttempt.mk 3 2 3 (now - (23 * HOUR + 59 * MINUTE)) None false;
        QuizAttempt.mk 4 3 1 (now - 48 * HOUR) (Some 50%Q) true])
    [QuizResponse.mk 1 1 1 1; QuizResponse.mk 2 4 1 2].

(** The primary key of [quiz_attempts] is a key. *)
Definition unique_attempt_ids (db : DB) : Prop :=
  NoDup (map QuizAttempt.id (quiz_attempts db)).

(** * The rest of the attempt engine and its surroundings *)

(** ** Viewing results (main.py) *)

(** The answers of [quiz_results]: the results page of the attempt, the
    refusal (flash ['You do not have permission to view these results.'],
    redirect to the dashboard), or the 404 of [get_or_404]. *)
Inductive results_reply :=
| Results_page (attempt : QuizAttempt.t)
| Results_denied
| Results_not_found.

(** [GET /user/results/<attempt_id>] *)
Definition quiz_results_view (db : DB) (current_user : User.t)
    (attempt_id : Z) : results_reply :=
  match QuizAttempt_get db attempt_id with
  | None => Results_not_found
  | Some attempt =>
      if negb (QuizAttempt.user_id attempt =? User.id current_user)
         && negb (User.is_admin current_user)
      then Results_denied
      else Results_page attempt
  end.

(** [GET /user/dashboard]: the five most recent attempts of the user and the
    quizzes open right now. *)
Definition user_dashboard_view (db : DB) (current_user : User.t)
    (now : datetime) : list QuizAttempt.t * list Quiz.t :=
  let recent_attempts :=
    firstn 5
      (order_by_date_taken_desc
         (filter (fun a => QuizAttempt.user_id a =? User.id current_user)
                 (quiz_attempts db))) in
  let available_quizzes :=
    filter (fun quiz => Quiz.is_available quiz now
                        && Quiz.registration_open quiz) (quizzes db) in
  (recent_attempts, available_quizzes).

(** ** User administration (main.py) *)

(** The decorator [admin_required]: the wrapped handler runs for an admin;
    anybody else is flashed ['You need admin privileges to access this
    page.'] and redirected to the login page. *)
Inductive guarded (A : Type) :=
| Admin_only
| Ran (result : A).
Arguments Admin_only {A}.
Arguments Ran {A} result.

Definition admin_required {A : Type} (current_user : User.t) (handler : A)
    : guarded A :=
  if User.is_admin current_user then Ran handler else Admin_only.

Definition set_users (db : DB) (rows : list User.t) : DB :=
  mkDB rows (quizzes db) (questions db) (options db) (quiz_attempts db)
       (quiz_responses db).

(** The messages of the two user-administration handlers. *)
Inductive admin_message :=
| Admin_status_granted
| Admin_status_revoked
| Cannot_change_own_admin_status
| User_deleted
| Cannot_delete_own_account.

(** [user.is_admin = not user.is_admin], written on the rows of that key. *)
Definition flip_admin (user_id : Z) (u : User.t) : User.t :=
  if User.id u =? user_id
  then User.mk (User.id u) (negb (User.is_admin u))
  else u.

(** [None] is the 404 of [get_or_404]; otherwise the new database and the
    flashed message (the redirect is to the users page in every case). *)
Definition toggle_admin_body (db : DB) (current_user : User.t) (user_id : Z)
    : option (DB * admin_message) :=
  match User_get db user_id with
  | None => None
  | Some user =>
      if negb (User.id user =? User.id current_user) then
        Some (set_users db (map (flip_admin (User.id user)) (users db)),
              if negb (User.is_admin user)
              then Admin_status_granted else Admin_status_revoked)
      else Some (db, Cannot_change_own_admin_status)
  end.

(** [GET /admin/users/toggle/<user_id>] *)
Definition toggle_admin (db : DB) (current_user : User.t) (user_id : Z)
    : guarded (option (DB * admin_message)) :=
  admin_required current_user (toggle_admin_body db current_user user_id).

(** [db.session.delete(user)]: the user row goes and, by the relationship
    cascades, the user's attempts and their responses. *)
Definition delete_user_body (db : DB) (current_user : User.t) (user_id : Z)
    : option (DB * admin_message) :=
  match User_get db user_id with
  | None => None
  | Some user =>
      if negb (User.id user =? User.id current_user) then
        let attempts :=
          filter (fun a => QuizAttempt.user_id a =? User.id user)
                 (quiz_attempts db) in
        Some (set_users (delete_attempts attempts db)
                (filter (fun u => negb (User.id u =? User.id user)) (users db)),
              User_deleted)
      else Some (db, Cannot_delete_own_account)
  end.

(** [POST /admin/users/delete/<user_id>] *)
Definition delete_user (db : DB) (current_user : User.t) (user_id : Z)
    : guarded (option (DB * admin_message)) :=
  admin_required current_user (delete_user_body db current_user user_id).

(** ** Mail (main.py, tasks.py) *)

(** A recipient is named by the user's key; [delivers r] tells whether
    [mail.send] to [r] returns ([true]) or raises ([false]).  The texts of
    the mails are not modelled. *)
Definition mailer : Type := Z -> bool.

(** The sending loop of [send_quiz_notification] (main.py): one [try]
    around the whole loop, so the first failing send ends it.  The result
    is the returned flag and the recipients served. *)
Fixpoint send_all_or_stop (delivers : mailer) (users : list User.t)
    (sent : list Z) : bool * list Z :=
  match users with
  | [] => (true, sent)
  | user :: rest =>
      if negb (User.is_admin user) then
        if delivers (User.id user)
        then send_all_or_stop delivers rest (sent ++ [User.id user])
        else (false, sent)
      else send_all_or_stop delivers rest sent
  end.

(** [send_quiz_notification(quiz, users)] of main.py *)
Definition send_quiz_notification (delivers : mailer) (quiz : Quiz.t)
    (users : list User.t) : bool * list Z :=
  send_all_or_stop delivers users [].

(** The sending loop of the two mail tasks (tasks.py): one [try] per
    recipient.  The state is the recipients served and those that failed.
    (The progress updates of the task are not modelled.) *)
Fixpoint send_each (delivers : mailer) (users : list User.t)
    (sent failed : list Z) : list Z * list Z :=
  match users with
  | [] => (sent, failed)
  | user :: rest =>
      if negb (User.is_admin user) then
        if delivers (User.id user)
        then send_each delivers rest (sent ++ [User.id user]) failed
        else send_each delivers rest sent (failed ++ [User.id user])
      else send_each delivers rest sent failed
  end.

(** The result of a mail task: ['error'], or ['success'] with the ['sent']
    and ['failed'] counts and the failed recipients; beside it, the
    recipients served. *)
Inductive mail_status :=
| mail_error
| mail_success (sent failed : Z) (failed_emails : list Z).

(** [User.query.filter(User.id.in_(user_ids)).all()] *)
Definition users_in (db : DB) (user_ids : list Z) : list User.t :=
  filter (fun u => mem (User.id u) user_ids) (users db).

(** [send_quiz_notification_task(quiz_id, user_ids)] *)
Definition send_quiz_notification_task (delivers : mailer) (db : DB)
    (quiz_id : Z) (user_ids : list Z) : mail_status * list Z :=
  match Quiz_get db quiz_id with
  | None => (mail_error, [])
  | Some quiz =>
      let '(sent, failed) := send_each delivers (users_in db user_ids) [] [] in
      (mail_success (Z.of_nat (length sent)) (Z.of_nat (length failed)) failed,
       sent)
  end.

(** [send_quiz_reminder_task(quiz_id, user_ids)]: as the notification task,
    but the start time is formatted without a guard. *)
Definition send_quiz_reminder_task (delivers : mailer) (db : DB)
    (quiz_id : Z) (user_ids : list Z) : mail_status * list Z :=
  match Quiz_get db quiz_id with
  | None => (mail_error, [])
  | Some quiz =>
      match Quiz.start_datetime quiz with
      | None => (mail_error, [])
      | Some _ =>
          let '(sent, failed) :=
            send_each delivers (users_in db user_ids) [] [] in
          (mail_success (Z.of_nat (length sent)) (Z.of_nat (length failed))
                        failed,
           sent)
      end
  end.

(** The quizzes [send_scheduled_reminders] selects:
    [is_scheduled == True], [start_datetime >= now],
    [start_datetime <= now + timedelta(hours=1)]; a null start satisfies
    neither comparison. *)
Definition upcoming_quizzes (db : DB) (now : datetime) : list Quiz.t :=
  filter (fun quiz =>
            Bool.eqb (Quiz.is_scheduled quiz) true
            && match Quiz.start_datetime quiz with
               | Some s => (now <=? s) && (s <=? now + timedelta_hours 1)
               | None => false
               end) (quizzes db).

(** [send_scheduled_reminders] of tasks.py: the reminder tasks queued, each
    with the quiz key and the keys of the non-admin users, and the
    ['quizzes_processed'] count. *)
Definition send_scheduled_reminders (db : DB) (now : datetime)
    : list (Z * list Z) * Z :=
  let upcoming := upcoming_quizzes db now in
  (map (fun quiz =>
          (Quiz.id quiz,
           map User.id (filter (fun u => negb (User.is_admin u)) (users db))))
       upcoming,
   Z.of_nat (length upcoming)).

(** [send_monthly_report(user)] of main.py, the synchronous sibling of the
    report task: [True] when a report was mailed, [False] when there is no
    attempt in the window or anything raised.  What is left out of the task
    is left out here. *)
Definition send_monthly_report (db : DB) (now : datetime) (user : User.t)
    : bool * option report :=
  let current_month := dt_month now in
  let current_year := dt_year now in
  match monthly_criteria user current_year current_month with
  | None => (false, None)
  | Some criteria =>
  match Query_filter criteria (quiz_attempts db) with
  | None => (false, None)
  | Some rows =>
  let attempts := order_by_date_taken_desc rows in
  match attempts with
  | [] => (false, None)
  | _ :: _ =>
      let total := Z.of_nat (length attempts) in
      if negb (forallb (has_quiz db) attempts) then (false, None)
      else
      let passed := Z.of_nat (length (filter (attempt_passed db) attempts)) in
      let failed := total - passed in
      let avg :=
        if 0 <? total
        then (Qsum (truthy_scores attempts) / inject_Z total)%Q else 0%Q in
      let highest := Qmax_default0 (truthy_scores attempts) in
      if existsb (fun a => match QuizAttempt.score a with
                           | None => true
                           | Some _ => false
                           end) (firstn 5 attempts)
      then (false, None)
      else (true,
            Some (mkReport total passed failed avg highest
                           (firstn 5 attempts)))
  end end end.

(** The loop of the route [/admin/send-monthly-reports] and of
    [send_automatic_monthly_reports]: [success_count] and the reports
    mailed. *)
Fixpoint report_each (db : DB) (now : datetime) (users : list User.t)
    : Z * list report :=
  match users with
  | [] => (0, [])
  | user :: rest =>
      let '(count, mailed) := report_each db now rest in
      match send_monthly_report db now user with
      | (true, Some r) => (count + 1, r :: mailed)
      | (true, None) => (count + 1, mailed)
      | (false, _) => (count, mailed)
      end
  end.

(** [send_automatic_monthly_reports] of main.py *)
Definition send_automatic_monthly_reports (db : DB) (now : datetime)
    : Z * list report :=
  if dt_day now =? 1 then
    report_each db now (filter (fun u => Bool.eqb (User.is_admin u) false)
                               (users db))
  else (0, []).

(** ** Export rows (main.py) *)

Inductive csv_status := PASS | FAIL | INCOMPLETE.

(** The status cell of the user-side exports ([download_user_history],
    [download_all_users_performance], [download_user_performance]):
    ['PASS' if attempt.passed else 'FAIL' if attempt.is_completed else
    'INCOMPLETE']. *)
Definition history_status (attempt : QuizAttempt.t) (quiz : Quiz.t)
    : csv_status :=
  if QuizAttempt.passed attempt quiz then PASS
  else if QuizAttempt.is_completed attempt then FAIL
  else INCOMPLETE.

(** The score cell of every export: the score to be printed, or [None] for
    ['N/A'] ([f"{attempt.score:.1f}" if attempt.score else 'N/A']). *)
Definition score_cell (attempt : QuizAttempt.t) : option Q :=
  match QuizAttempt.score attempt with
  | Some x => if truthy_score (Some x) then Some x else None
  | None => None
  end.

(** The status cell of [download_admin_performance]:
    ['PASS' if attempt.score >= quiz.pass_percentage else 'FAIL' if
    attempt.is_completed else 'INCOMPLETE'], the comparison being made on
    the raw column; [None] is the [TypeError] of comparing [None] with a
    float. *)
Definition performance_status (attempt : QuizAttempt.t) (quiz : Quiz.t)
    : option csv_status :=
  match QuizAttempt.score attempt with
  | None => None
  | Some s =>
      Some (if Qle_bool (Quiz.pass_percentage quiz) s then PASS
            else if QuizAttempt.is_completed attempt then FAIL
            else INCOMPLETE)
  end.

(** The inner join of [download_admin_performance] keeps the attempts whose
    quiz and user exist (chapters and subjects are taken to resolve). *)
Definition joined (db : DB) (attempt : QuizAttempt.t) : bool :=
  has_quiz db attempt
  && match User_get db (QuizAttempt.user_id attempt) with
     | Some _ => true
     | None => false
     end.

(** The status column of [download_admin_performance] over the joined
    attempts, in table order (the export's own order, by user name, is not
    modelled); [None] is the uncaught [TypeError]. *)
Fixpoint performance_statuses (db : DB) (attempts : list QuizAttempt.t)
    : option (list csv_status) :=
  match attempts with
  | [] => Some []
  | attempt :: rest =>
      match Quiz_get db (QuizAttempt.quiz_id attempt) with
      | None => performance_statuses db rest
      | Some quiz =>
          if joined db attempt then
            match performance_status attempt quiz with
            | None => None
            | Some status =>
                match performance_statuses db rest with
                | None => None
                | Some statuses => Some (status :: statuses)
                end
            end
          else performance_statuses db rest
      end
  end.

(** ** The rate limiter (cache.py) *)

Module RateLimit.

Import String.

(** The key-value server, as far as the rate limiter uses it.  A value is
    the decimal text of an integer or some other text; a key may carry an
    expiry instant (in seconds) and is gone from that instant on. *)
Inductive payload :=
| Integer (n : Z)
| Other.

Record entry := mkEntry { value : payload; expires_at : option Z }.

Definition store : Type := String.string -> option entry.

Definition empty : store := fun _ => None.

Definition live (now : Z) (e : entry) : bool :=
  match expires_at e with
  | None => true
  | Some t => now <? t
  end.

(** [GET key] *)
Definition GET (s : store) (now : Z) (key : String.string) : option payload :=
  match s key with
  | Some e => if live now e then Some (value e) else None
  | None => None
  end.

Definition put (s : store) (key : String.string) (e : entry) : store :=
  fun k => if String.eqb k key then Some e else s k.

(** [SETEX key seconds value]; [None] is the server's error on a
    non-positive expiry. *)
Definition SETEX (s : store) (now : Z) (key : String.string) (seconds : Z)
    (v : payload) : option store :=
  if 0 <? seconds then Some (put s key (mkEntry v (Some (now + seconds))))
  else None.

(** [INCR key]: a missing key counts from 0 and gets no expiry, a live one
    keeps its expiry; [None] is the server's error on a value that is not
    an integer. *)
Definition INCR (s : store) (now : Z) (key : String.string) : option store :=
  match s key with
  | Some e =>
      if live now e then
        match value e with
        | Integer n => Some (put s key (mkEntry (Integer (n + 1)) (expires_at e)))
        | Other => None
        end
      else Some (put s key (mkEntry (Integer 1) None))
  | None => Some (put s key (mkEntry (Integer 1) None))
  end.

Definition prefix : String.string := "rate_limit_"%string.

(** [RateLimiter.is_allowed(key, max_requests, window_seconds)]: the answer
    and the server's state afterwards.  Any exception (a server error, the
    [ValueError] of [int()]) is caught and answered [True]. *)
Definition is_allowed (s : store) (now : Z) (key : String.string)
    (max_requests window_seconds : Z) : bool * store :=
  let rate_key := String.append prefix key in
  match GET s now rate_key with
  | None =>
      match SETEX s now rate_key window_seconds (Integer 1) with
      | Some s' => (true, s')
      | None => (true, s)
      end
  | Some (Integer current_count) =>
      if current_count <? max_requests then
        match INCR s now rate_key with
        | Some s' => (true, s')
        | None => (true, s)
        end
      else (false, s)
  | Some Other => (true, s)
  end.

(** [RateLimiter.get_remaining(key, max_requests)] *)
Definition get_remaining (s : store) (now : Z) (key : String.string)
    (max_requests : Z) : Z :=
  let rate_key := String.append prefix key in
  match GET s now rate_key with
  | None => max_requests
  | Some (Integer current_count) => Z.max 0 (max_requests - current_count)
  | Some Other => max_requests
  end.

(** A run of requests of one client, at the given instants: the answers in
    order, and the final state. *)
Fixpoint serve (s : store) (key : String.string) (max_requests window_seconds : Z)
    (instants : list Z) : list bool * store :=
  match instants with
  | [] => ([], s)
  | now :: rest =>
      let '(answer, s1) := is_allowed s now key max_requests window_seconds in
      let '(answers, s2) := serve s1 key max_requests window_seconds rest in
      (answer :: answers, s2)
  end.

End RateLimit.

(** ** More vocabulary *)

(** The attempts a user has for a quiz, whatever their state. *)
Definition attempts_of (user_id quiz_id : Z) (rows : list QuizAttempt.t)
    : list QuizAttempt.t :=
  filter (fun a => (QuizAttempt.user_id a =? user_id)
                   && (QuizAttempt.quiz_id a =? quiz_id)) rows.


(** An attempt has a score exactly when it is completed. *)
Definition scored_iff_completed (db : DB) : Prop :=
  forall a, In a (quiz_attempts db) ->
            (QuizAttempt.is_completed a = true <-> QuizAttempt.score a <> None).

(** [no_later a b]: [b] was taken no later than [a]. *)
Definition no_later (a b : QuizAttempt.t) : Prop :=
  QuizAttempt.date_taken b <= QuizAttempt.date_taken a.

(** The window the monthly report means to select for a user. *)
Definition in_month (user : User.t) (first next : datetime)
    (a : QuizAttempt.t) : bool :=
  (QuizAttempt.user_id a =? User.id user)
  && (first <=? QuizAttempt.date_taken a)
  && (QuizAttempt.date_taken a <? next).


(** A non-admin user for whom [p] holds of the key. *)
Definition ordinary_and (p : Z -> bool) (u : User.t) : bool :=
  negb (User.is_admin u) && p (User.id u).

(** Bob, a second ordinary user, and a catalogue that knows him. *)
Definition bob : User.t := User.mk 3 false.

Definition two_users : DB :=
  set_quiz_responses
    (set_quiz_attempts
       (set_users Sample.catalogue [Sample.admin; Sample.alice; bob])
       [Sample.in_progress;
        QuizAttempt.mk 2 3 1 (Sample.instant 2025 11 2 9 0 0) (Some 50%Q) true])
    [QuizResponse.mk 1 1 1 1; QuizResponse.mk 2 2 1 2; QuizResponse.mk 3 2 2 3].

(** A mail server that refuses Alice. *)
Definition refuses_alice : mailer := fun r => negb (r =? 2).

(** * Properties *)

(** ** Availability *)

Lemma is_available_unscheduled (q : Quiz.t) (now : datetime) :
  Quiz.is_scheduled q = false -> Quiz.is_available q now = true.
Proof.
  intros H. unfold Quiz.is_available. now rewrite H.
Qed.

Lemma is_available_scheduled (q : Quiz.t) (now : datetime) :
  Quiz.is_scheduled q = true ->
  (Quiz.is_available q now = true <-> started q now /\ not_ended q now).
Proof.
  intros H. unfold Quiz.is_available, started, not_ended. rewrite H. simpl.
  destruct (Quiz.start_datetime q) as [s|], (Quiz.end_datetime q) as [e|];
    repeat match goal with
           | |- context [?a <? ?b] => destruct (Z.ltb_spec a b)
           end;
    split; try tauto; try discriminate; intros [? ?]; lia.
Qed.

(** C2.  A quiz that is not scheduled is available at every instant; a
    scheduled quiz is available exactly when [start_datetime <= now <=
    end_datetime], a missing bound putting no restriction on its side, and
    the two boundary instants being available. *)
Theorem is_available_spec (q : Quiz.t) (now : datetime) :
  Quiz.is_available q now = true <->
  (Quiz.is_scheduled q = false \/ (started q now /\ not_ended q now)).
Proof.
  destruct (Quiz.is_scheduled q) eqn:Hs.
  - rewrite (is_available_scheduled q now Hs). split.
    + intros H. now right.
    + intros [H | H]; [discriminate | exact H].
  - split.
    + intros _. now left.
    + intros _. now apply is_available_unscheduled.
Qed.

Example is_available_at_start :
  Quiz.is_available (Quiz.mk 1 None 50 true (Some 100) (Some 200)) 100 = true.
Proof. reflexivity. Qed.

Example is_available_at_end :
  Quiz.is_available (Quiz.mk 1 None 50 true (Some 100) (Some 200)) 200 = true.
Proof. reflexivity. Qed.

Example is_available_before_start :
  Quiz.is_available (Quiz.mk 1 None 50 true (Some 100) (Some 200)) 99 = false.
Proof. reflexivity. Qed.

Example is_available_after_end :
  Quiz.is_available (Quiz.mk 1 None 50 true (Some 100) (Some 200)) 201 = false.
Proof. reflexivity. Qed.

Example is_available_open_end :
  Quiz.is_available (Quiz.mk 1 None 50 true (Some 100) None) 10000 = true.
Proof. reflexivity. Qed.

(** ** Passing *)

(** C3.  An attempt has passed exactly when it has a score and that score
    is at least the quiz's pass percentage; a score equal to the threshold
    passes.  [passed] is a function of the attempt's [score] and the quiz's
    current [pass_percentage], no column of the attempt row. *)
Theorem passed_spec (a : QuizAttempt.t) (quiz : Quiz.t) :
  (QuizAttempt.passed a quiz = true <->
   exists s, QuizAttempt.score a = Some s /\ (Quiz.pass_percentage quiz <= s)%Q)
  /\ QuizAttempt.passed
       (QuizAttempt.set_score a (Some (Quiz.pass_percentage quiz))) quiz = true
  /\ (forall a' quiz',
        QuizAttempt.score a' = QuizAttempt.score a ->
        Quiz.pass_percentage quiz' = Quiz.pass_percentage quiz ->
        QuizAttempt.passed a' quiz' = QuizAttempt.passed a quiz).
Proof.
  split; [| split].
  - unfold QuizAttempt.passed. destruct (QuizAttempt.score a) as [s|].
    + rewrite Qle_bool_iff. split.
      * intros H. exists s. now split.
      * intros [s' [E H]]. injection E as ->. exact H.
    + split; [discriminate |]. intros [s' [E _]]. discriminate.
  - unfold QuizAttempt.passed, QuizAttempt.set_score. simpl.
    apply Qle_bool_iff. apply Qle_refl.
  - intros a' quiz' Hs Hp. unfold QuizAttempt.passed. now rewrite Hs, Hp.
Qed.

Example passed_at_threshold :
  QuizAttempt.passed (QuizAttempt.mk 1 1 1 0 (Some 75%Q) true)
                     (Quiz.mk 1 None 75 false None None) = true.
Proof. reflexivity. Qed.

Example not_passed_without_score :
  QuizAttempt.passed (QuizAttempt.mk 1 1 1 0 None false)
                     (Quiz.mk 1 None 0 false None None) = false.
Proof. reflexivity. Qed.

(** ** Lists of rows *)

Lemma mem_In (x : Z) (l : list Z) : mem x l = true <-> In x l.
Proof.
  unfold mem. rewrite existsb_exists. split.
  - intros [y [Hy E]]. apply Z.eqb_eq in E. now subst.
  - intros H. exists x. split; [exact H | apply Z.eqb_refl].
Qed.

Lemma filter_length_le {A : Type} (p f : A -> bool) (l : list A) :
  (length (filter p (filter f l)) <= length (filter p l))%nat.
Proof.
  induction l as [|x l IH]; simpl; [lia |].
  destruct (f x), (p x) eqn:Hp; simpl; try rewrite Hp; simpl; lia.
Qed.


Lemma unique_key {A : Type} (key : A -> Z) (l : list A) (a b : A) :
  NoDup (map key l) -> In a l -> In b l -> key a = key b -> a = b.
Proof.
  induction l as [|x l IH]; simpl; [tauto |].
  intros Hnd Ha Hb E. inversion Hnd as [|k ks Hnotin Hnd']; subst.
  destruct Ha as [-> | Ha], Hb as [-> | Hb]; auto.
  - exfalso. apply Hnotin. rewrite E. now apply in_map.
  - exfalso. apply Hnotin. rewrite <- E. now apply in_map.
Qed.

(** Deleting, by key, the rows a predicate selects leaves the rows the
    predicate rejects, when keys are unique. *)
Lemma delete_selected (p : QuizAttempt.t -> bool) (l : list QuizAttempt.t) :
  NoDup (map QuizAttempt.id l) ->
  filter (fun a => negb (mem (QuizAttempt.id a)
                             (map QuizAttempt.id (filter p l)))) l
  = filter (fun a => negb (p a)) l.
Proof.
  intros Hnd. apply filter_ext_in. intros a Ha. f_equal.
  destruct (p a) eqn:Hp.
  - apply mem_In. apply in_map. apply filter_In. now split.
  - destruct (mem _ _) eqn:Hm; [| reflexivity].
    apply mem_In in Hm. apply in_map_iff in Hm. destruct Hm as [b [E Hb]].
    apply filter_In in Hb. destruct Hb as [Hb Hpb].
    assert (b = a) by (eapply unique_key; eauto). subst. congruence.
Qed.

Lemma filter_partition_length {A : Type} (p : A -> bool) (l : list A) :
  (length l = length (filter p l) + length (filter (fun a => negb (p a)) l))%nat.
Proof.
  induction l as [|x l IH]; simpl; [reflexivity |].
  destruct (p x); simpl; lia.
Qed.

(** ** The cleanup job *)

Lemma stale_selected (now : datetime) (a : QuizAttempt.t) :
  Bool.eqb (QuizAttempt.is_completed a) false
  && (QuizAttempt.date_taken a <? now - timedelta_hours 24) = true
  <-> stale now a.
Proof.
  unfold stale, timedelta_hours.
  rewrite andb_true_iff, Z.ltb_lt, Bool.eqb_true_iff. split; intros [? ?];
    split; auto; lia.
Qed.

(** C8.  On a table with unique keys, the cleanup job removes exactly the
    incomplete attempts whose [date_taken] lies strictly more than 24 hours
    before [now], removes with them exactly the responses that belong to
    them, and reports how many attempts it removed.  An incomplete attempt
    dated 24 h + 1 s back goes; one dated 23 h 59 min back, or exactly 24 h
    back, stays. *)
Theorem cleanup_spec (db : DB) (now : datetime) :
  unique_attempt_ids db ->
  let db' := fst (cleanup_incomplete_attempts_task db now) in
  let count := snd (cleanup_incomplete_attempts_task db now) in
  (forall a, In a (quiz_attempts db') <->
             In a (quiz_attempts db) /\ ~ stale now a)
  /\ (forall r, In r (quiz_responses db') <->
                In r (quiz_responses db) /\
                ~ exists a, In a (quiz_attempts db) /\ stale now a /\
                            QuizResponse.attempt_id r = QuizAttempt.id a)
  /\ (length (quiz_attempts db) = length (quiz_attempts db') + count)%nat
  /\ (forall a, In a (quiz_attempts db) ->
                QuizAttempt.is_completed a = false ->
                (QuizAttempt.date_taken a = now - (24 * HOUR + SECOND) ->
                 ~ In a (quiz_attempts db'))
                /\ (QuizAttempt.date_taken a = now - (23 * HOUR + 59 * MINUTE) ->
                    In a (quiz_attempts db'))
                /\ (QuizAttempt.date_taken a = now - 24 * HOUR ->
                    In a (quiz_attempts db')))
  /\ users db' = users db /\ quizzes db' = quizzes db
  /\ questions db' = questions db /\ options db' = options db.
Proof.
  intros Hnd db' count. unfold unique_attempt_ids in Hnd.
  assert (Hatt : forall a, In a (quiz_attempts db') <->
                           In a (quiz_attempts db) /\ ~ stale now a).
  { intros a. subst db'. unfold cleanup_incomplete_attempts_task. simpl.
    rewrite delete_selected by exact Hnd. rewrite filter_In.
    rewrite negb_true_iff, <- not_true_iff_false, stale_selected. tauto. }
  split; [exact Hatt |]. split; [| split; [| split]].
  - intros r. subst db'. unfold cleanup_incomplete_attempts_task. simpl.
    rewrite filter_In, negb_true_iff, <- not_true_iff_false, mem_In.
    rewrite in_map_iff. split.
    + intros [Hr Hno]. split; [exact Hr |]. intros [a [Ha [Hst E]]].
      apply Hno. exists a. split; [now symmetry |].
      apply filter_In. split; [exact Ha | now apply stale_selected].
    + intros [Hr Hno]. split; [exact Hr |]. intros [a [E Ha]].
      apply filter_In in Ha. destruct Ha as [Ha Hsel].
      apply Hno. exists a. split; [exact Ha |].
      split; [now apply stale_selected | now symmetry].
  - subst db' count. unfold cleanup_incomplete_attempts_task, delete_attempts.
    cbn [fst snd quiz_attempts].
    rewrite delete_selected by exact Hnd.
    rewrite (filter_partition_length
               (fun a => Bool.eqb (QuizAttempt.is_completed a) false
                         && (QuizAttempt.date_taken a
                             <? now - timedelta_hours 24))
               (quiz_attempts db)) at 1.
    lia.
  - intros a Ha Hinc. repeat split.
    + intros Hd Hin. apply Hatt in Hin. destruct Hin as [_ Hns].
      apply Hns. split; [exact Hinc |]. unfold HOUR, SECOND in *. lia.
    + intros Hd. apply Hatt. split; [exact Ha |]. intros [_ Hlt].
      unfold HOUR, MINUTE, SECOND in *. lia.
    + intros Hd. apply Hatt. split; [exact Ha |]. intros [_ Hlt]. lia.
  - subst db'. unfold cleanup_incomplete_attempts_task. simpl. tauto.
Qed.

(** ** At most one attempt in progress *)





Ltac break_handler :=
  repeat match goal with
         | |- context [match ?x with _ => _ end] => destruct x eqn:?; simpl
         end.



Lemma start_quiz_attempt_cases db session current_user now local_now quiz_id :
  let o := start_quiz_attempt db session current_user now local_now quiz_id in
  db_after o = db
  \/ (quiz_attempts (db_after o)
      = started_attempts db (User.id current_user) quiz_id local_now
      /\ quiz_responses (db_after o)
         = quiz_responses
             (delete_attempts
                (attempts_by (User.id current_user) quiz_id false
                             (quiz_attempts db)) db)).
Proof.
  unfold start_quiz_attempt. break_handler; auto.
Qed.





(** Primary keys stay unique along the way. *)
Lemma next_id_fresh {A : Type} (key : A -> Z) (l : list A) :
  ~ In (next_id key l) (map key l).
Proof.
  assert (H : forall k, In k (map key l) -> k < next_id key l).
  { unfold next_id. induction l as [|x l IH]; simpl; [tauto |].
    intros k [<- | Hk]; [lia |]. specialize (IH k Hk). lia. }
  intros Hin. apply H in Hin. lia.
Qed.

Lemma NoDup_map_filter {A : Type} (key : A -> Z) (f : A -> bool) (l : list A) :
  NoDup (map key l) -> NoDup (map key (filter f l)).
Proof.
  induction l as [|x l IH]; simpl; [tauto |].
  intros H. inversion H as [|k ks Hnotin Hnd]; subst.
  destruct (f x); simpl; [| now apply IH].
  constructor; [| now apply IH].
  intros Hin. apply Hnotin. apply in_map_iff in Hin.
  destruct Hin as [y [E Hy]]. apply filter_In in Hy.
  apply in_map_iff. exists y. tauto.
Qed.

Lemma update_keeps_ids (x : Z) (f : QuizAttempt.t -> QuizAttempt.t)
    (l : list QuizAttempt.t) :
  (forall a, QuizAttempt.id (f a) = QuizAttempt.id a) ->
  map QuizAttempt.id
      (map (fun a => if QuizAttempt.id a =? x then f a else a) l)
  = map QuizAttempt.id l.
Proof.
  intros Hf. rewrite map_map.
  apply map_ext. intros a. destruct (QuizAttempt.id a =? x); auto.
Qed.

Lemma step_unique_ids (db db' : DB) :
  step db db' -> unique_attempt_ids db -> unique_attempt_ids db'.
Proof.
  unfold unique_attempt_ids. intros Hstep Hnd. destruct Hstep.
  - unfold take_quiz. break_handler; try exact Hnd.
    rewrite update_keeps_ids; [exact Hnd | reflexivity].
  - destruct (start_quiz_attempt_cases db session current_user now local_now
                quiz_id) as [E | [E _]]; [now rewrite E |].
    rewrite E. unfold started_attempts. cbv zeta.
    rewrite map_app. simpl.
    apply NoDup_app.
    + unfold delete_attempts. simpl. now apply NoDup_map_filter.
    + repeat constructor. simpl. tauto.
    + intros k Hk [<- | []]. revert Hk. apply next_id_fresh.
  - unfold submit_quiz. break_handler; try exact Hnd.
    rewrite update_keeps_ids; [exact Hnd | reflexivity].
  - unfold cleanup_incomplete_attempts_task, delete_attempts. simpl.
    now apply NoDup_map_filter.
  - unfold delete_attempts. simpl. now apply NoDup_map_filter.
  - exact Hnd.
Qed.

Lemma reachable_unique_ids (init db : DB) :
  unique_attempt_ids init -> reachable init db -> unique_attempt_ids db.
Proof.
  intros Hinit Hreach. induction Hreach as [| d d' _ IH Hstep]; [exact Hinit |].
  exact (step_unique_ids d d' Hstep IH).
Qed.


(** ** Scoring a submission *)

Lemma find_key {A : Type} (key : A -> Z) (x : Z) (l : list A) (a : A) :
  find (fun r => key r =? x) l = Some a -> key a = x /\ In a l.
Proof.
  intros H. apply find_some in H. destruct H as [Hin E].
  apply Z.eqb_eq in E. now split.
Qed.

Lemma score_loop_spec (db : DB) (request_form : form) (attempt_id : Z)
    (qs : list Question.t) :
  (forall question, In question qs -> well_formed db request_form question) ->
  forall added correct_answers,
    score_loop db request_form attempt_id qs added correct_answers
    = Some (added ++ flat_map (contributed request_form attempt_id) qs,
            correct_answers
            + Z.of_nat (length (filter (counts_correct db request_form) qs))).
Proof.
  induction qs as [|question rest IH]; intros Hwf added c.
  - simpl. now rewrite app_nil_r, Z.add_0_r.
  - assert (Hrest : forall q, In q rest -> well_formed db request_form q)
      by (intros q Hq; apply Hwf; now right).
    specialize (IH Hrest).
    pose proof (Hwf question (or_introl eq_refl)) as Hq.
    unfold well_formed in Hq.
    cbn [score_loop flat_map filter].
    unfold counts_correct at 1, contributed at 1, selected.
    destruct (request_form (Question.id question)) as [| | |n].
    + now rewrite IH.
    + now rewrite IH.
    + contradiction.
    + destruct Hq as [o Ho]. rewrite Ho.
      destruct (find_key Option.id n _ _ Ho) as [Hid _].
      rewrite IH, Hid, <- app_assoc. simpl.
      destruct (Option.is_correct o); simpl length; f_equal; f_equal; lia.
Qed.

Lemma insert_responses_spec (added : list pending) :
  forall rows, exists news,
    insert_responses rows added = rows ++ news /\ map columns news = added.
Proof.
  induction added as [|[[a q] o] rest IH]; intros rows.
  - exists []. simpl. now rewrite app_nil_r.
  - simpl.
    destruct (IH (rows ++ [QuizResponse.mk (next_id QuizResponse.id rows) a q o]))
      as [news [E M]].
    exists (QuizResponse.mk (next_id QuizResponse.id rows) a q o :: news).
    rewrite E, <- app_assoc. simpl. split; [reflexivity |]. now rewrite M.
Qed.

Lemma get_after_update (x : Z) (f : QuizAttempt.t -> QuizAttempt.t)
    (l : list QuizAttempt.t) (a : QuizAttempt.t) :
  (forall b, QuizAttempt.id (f b) = QuizAttempt.id b) ->
  find (fun r => QuizAttempt.id r =? x) l = Some a ->
  find (fun r => QuizAttempt.id r =? x)
       (map (fun r => if QuizAttempt.id r =? x then f r else r) l)
  = Some (f a).
Proof.
  intros Hf. induction l as [|b l IH]; simpl; [discriminate |].
  destruct (QuizAttempt.id b =? x) eqn:E.
  - intros H. injection H as <-. now rewrite Hf, E.
  - rewrite E. exact IH.
Qed.

(** The outcome of a well-formed submission, in closed form. *)
Lemma submit_quiz_outcome db session current_user request_form quiz_id quiz
    attempt_id attempt :
  User.is_admin current_user = false ->
  Quiz_get db quiz_id = Some quiz ->
  current_attempt_id session = Some attempt_id ->
  attempt_id <> 0 ->
  QuizAttempt_get db attempt_id = Some attempt ->
  (forall question, In question (Quiz_questions db quiz) ->
                    well_formed db request_form question) ->
  let qs := Quiz_questions db quiz in
  let score :=
    score_percentage
      (Z.of_nat (length (filter (counts_correct db request_form) qs)))
      (Z.of_nat (length qs)) in
  submit_quiz db session current_user request_form quiz_id
  = mkOutcome
      (update_attempt attempt_id
         (fun a => QuizAttempt.set_is_completed
                     (QuizAttempt.set_score a (Some score)) true)
         (set_quiz_responses db
            (insert_responses (quiz_responses db)
               (flat_map (contributed request_form attempt_id) qs))))
      (mkSession None None)
      [(Quiz_submitted score, success)]
      (Redirect (quiz_results attempt_id)).
Proof.
  intros Hadmin Hquiz Hsess Hnz Hget Hwf qs score.
  unfold submit_quiz. rewrite Hadmin, Hquiz, Hsess.
  apply Z.eqb_neq in Hnz. rewrite Hnz.
  rewrite (score_loop_spec db request_form attempt_id _ Hwf), Hget.
  reflexivity.
Qed.


(** ** Options of other questions *)

Lemma score_percentage_pos (correct total : Z) :
  0 < correct -> 0 < total -> (0 < score_percentage correct total)%Q.
Proof.
  intros Hc Ht. unfold score_percentage.
  pose proof Ht as Ht'. apply Z.ltb_lt in Ht'. rewrite Ht'.
  apply Qmult_lt_0_compat; [| reflexivity].
  apply Qmult_lt_0_compat.
  - unfold Qlt. simpl. lia.
  - apply Qinv_lt_0_compat. unfold Qlt. simpl. lia.
Qed.

Lemma filter_nonempty_length {A : Type} (p : A -> bool) (l : list A) (x : A) :
  In x l -> p x = true -> (0 < length (filter p l))%nat.
Proof.
  intros Hin Hp.
  assert (H : In x (filter p l)) by (apply filter_In; now split).
  destruct (filter p l); [contradiction | simpl; lia].
Qed.

(** C10.  The scoring loop looks up the submitted option id in the whole
    options table and reads its [is_correct] flag; the option's own
    [question_id] is never compared with the question.  So a question
    answered with the id of a correct option of another question is counted
    correct ([correct_answers] grows by one, the recorded score is
    positive), and a response row pairing the question with that option is
    stored. *)
Theorem foreign_option_counts db session current_user request_form quiz_id
    quiz attempt_id attempt question n o :
  User.is_admin current_user = false ->
  Quiz_get db quiz_id = Some quiz ->
  current_attempt_id session = Some attempt_id ->
  attempt_id <> 0 ->
  QuizAttempt_get db attempt_id = Some attempt ->
  (forall x, In x (Quiz_questions db quiz) -> well_formed db request_form x) ->
  In question (Quiz_questions db quiz) ->
  request_form (Question.id question) = Numeral n ->
  Option_get db n = Some o ->
  Option.question_id o <> Question.id question ->
  Option.is_correct o = true ->
  let out := submit_quiz db session current_user request_form quiz_id in
  (forall rest added correct_answers,
     score_loop db request_form attempt_id (question :: rest) added
                correct_answers
     = score_loop db request_form attempt_id rest
         (added ++ [(attempt_id, Question.id question, Option.id o)])
         (correct_answers + 1))
  /\ counts_correct db request_form question = true
  /\ (exists r, In r (quiz_responses (db_after out))
                /\ QuizResponse.attempt_id r = attempt_id
                /\ QuizResponse.question_id r = Question.id question
                /\ QuizResponse.option_id r = Option.id o)
  /\ (exists s, QuizAttempt_get (db_after out) attempt_id
                = Some (QuizAttempt.mk attempt_id (QuizAttempt.user_id attempt)
                          (QuizAttempt.quiz_id attempt)
                          (QuizAttempt.date_taken attempt) (Some s) true)
                /\ (0 < s)%Q).
Proof.
  intros Hadmin Hquiz Hsess Hnz Hget Hwf Hin Hfield Hopt Hforeign Hcorrect out.
  destruct (find_key Option.id n _ _ Hopt) as [Hid _].
  assert (Hcounts : counts_correct db request_form question = true).
  { unfold counts_correct, selected. now rewrite Hfield, Hopt. }
  split; [| split; [exact Hcounts | split]].
  - intros rest added c. cbn [score_loop]. now rewrite Hfield, Hopt, Hcorrect.
  - subst out.
    rewrite (submit_quiz_outcome db session current_user request_form quiz_id
               quiz attempt_id attempt Hadmin Hquiz Hsess Hnz Hget Hwf).
    cbn [db_after]. unfold update_attempt, set_quiz_responses.
    cbn [quiz_responses set_quiz_attempts].
    destruct (insert_responses_spec
                (flat_map (contributed request_form attempt_id)
                          (Quiz_questions db quiz)) (quiz_responses db))
      as [news [E M]].
    rewrite E.
    assert (Hc : In (attempt_id, Question.id question, Option.id o)
                    (map columns news)).
    { rewrite M. apply in_flat_map. exists question. split; [exact Hin |].
      unfold contributed, selected. rewrite Hfield, Hid. now left. }
    apply in_map_iff in Hc. destruct Hc as [r [Hr Hnews]].
    exists r. split; [apply in_or_app; now right |].
    unfold columns in Hr. injection Hr as Ha Hq Ho. now repeat split.
  - subst out.
    rewrite (submit_quiz_outcome db session current_user request_form quiz_id
               quiz attempt_id attempt Hadmin Hquiz Hsess Hnz Hget Hwf).
    cbn [db_after]. eexists. split.
    + unfold QuizAttempt_get, update_attempt, set_quiz_responses.
      cbn [quiz_attempts set_quiz_attempts].
      unfold QuizAttempt_get in Hget.
      rewrite (get_after_update attempt_id
                 (fun a => QuizAttempt.set_is_completed
                             (QuizAttempt.set_score a
                                (Some (score_percentage
                                   (Z.of_nat (length (filter
                                      (counts_correct db request_form)
                                      (Quiz_questions db quiz))))
                                   (Z.of_nat (length (Quiz_questions db quiz))))))
                             true)
                 _ attempt (fun b => eq_refl) Hget).
      destruct (find_key QuizAttempt.id attempt_id _ _ Hget) as [Hida _].
      unfold QuizAttempt.set_is_completed, QuizAttempt.set_score. simpl.
      rewrite Hida. reflexivity.
    + apply score_percentage_pos.
      * pose proof (filter_nonempty_length (counts_correct db request_form)
                      _ question Hin Hcounts). lia.
      * destruct (Quiz_questions db quiz); [contradiction | simpl length; lia].
Qed.

(** ** Starting again after completion *)

(** C7 (as the code has it).  When the user holds a completed attempt for
    the quiz, a start request changes neither the database nor the session:
    no attempt row is created.  When moreover the user is not an admin and
    the quiz is available at that moment, the request is answered with the
    "already completed" warning and a redirect to the results of the first
    completed attempt.  (The admin guard and the availability guard come
    first in the handler and answer with their own message and redirect.) *)
Theorem start_after_completion db session current_user now local_now quiz_id
    previous_attempt others :
  attempts_by (User.id current_user) quiz_id true (quiz_attempts db)
  = previous_attempt :: others ->
  let o := start_quiz_attempt db session current_user now local_now quiz_id in
  db_after o = db
  /\ session_after o = session
  /\ (forall quiz,
        User.is_admin current_user = false ->
        Quiz_get db quiz_id = Some quiz ->
        Quiz.is_available quiz now = true ->
        flashed o = [(Already_completed_cannot_retake, warning)]
        /\ resp o = Redirect (quiz_results (QuizAttempt.id previous_attempt))).
Proof.
  intros Hprev o. subst o. unfold start_quiz_attempt. rewrite Hprev.
  split; [| split].
  - break_handler; reflexivity.
  - break_handler; reflexivity.
  - intros quiz Hadmin Hquiz Havail. rewrite Hadmin, Hquiz, Havail. simpl.
    split; reflexivity.
Qed.

(** ** Re-entry through the info page *)

Lemma in_update_attempt (x : Z) (f : QuizAttempt.t -> QuizAttempt.t) (db : DB)
    (a : QuizAttempt.t) :
  In a (quiz_attempts db) -> QuizAttempt.id a = x ->
  In (f a) (quiz_attempts (update_attempt x f db)).
Proof.
  intros Hin Hid. unfold update_attempt. simpl.
  apply in_map_iff. exists a. split; [| exact Hin].
  apply Z.eqb_eq in Hid. now rewrite Hid.
Qed.

(** C5 (as the code has it).  A non-admin user who opens the info page of an
    available quiz that has questions, holding no completed attempt but an
    attempt in progress for it, gets the first such attempt recorded as
    completed with score 0 and the "left incomplete" warning; the response
    is the quiz info page itself, not a redirect, and the session is left
    as it was.  From then on a start request for that quiz, at any moment
    the quiz is available, is rejected, changes nothing, and redirects to
    the results of a completed attempt. *)
Theorem take_quiz_abandons db session current_user now quiz_id quiz
    incomplete_attempt others question questions_rest :
  User.is_admin current_user = false ->
  Quiz_get db quiz_id = Some quiz ->
  Quiz.is_available quiz now = true ->
  attempts_by (User.id current_user) quiz_id true (quiz_attempts db) = [] ->
  Quiz_questions db quiz = question :: questions_rest ->
  attempts_by (User.id current_user) quiz_id false (quiz_attempts db)
  = incomplete_attempt :: others ->
  let o := take_quiz db session current_user now quiz_id in
  db_after o = update_attempt (QuizAttempt.id incomplete_attempt) abandon db
  /\ In (abandon incomplete_attempt) (quiz_attempts (db_after o))
  /\ QuizAttempt.score (abandon incomplete_attempt) = Some 0%Q
  /\ QuizAttempt.is_completed (abandon incomplete_attempt) = true
  /\ flashed o = [(Left_incomplete_recorded_as_submission, warning)]
  /\ resp o = Render (take_quiz_html quiz)
  /\ session_after o = session
  /\ (forall session' now' local_now',
        Quiz.is_available quiz now' = true ->
        let o' := start_quiz_attempt (db_after o) session' current_user now'
                                     local_now' quiz_id in
        db_after o' = db_after o
        /\ exists completed,
             In completed (quiz_attempts (db_after o))
             /\ QuizAttempt.is_completed completed = true
             /\ resp o' = Redirect (quiz_results (QuizAttempt.id completed))).
Proof.
  intros Hadmin Hquiz Havail Hnone Hqs Hinc o.
  assert (Ho : o = mkOutcome
                     (update_attempt (QuizAttempt.id incomplete_attempt)
                                     abandon db)
                     session
                     [(Left_incomplete_recorded_as_submission, warning)]
                     (Render (take_quiz_html quiz))).
  { subst o. unfold take_quiz.
    now rewrite Hadmin, Hquiz, Havail, Hnone, Hqs, Hinc. }
  assert (Hin : In incomplete_attempt
                   (attempts_by (User.id current_user) quiz_id false
                                (quiz_attempts db)))
    by (rewrite Hinc; now left).
  unfold attempts_by in Hin. apply filter_In in Hin. destruct Hin as [Hin Hp].
  assert (Hab : In (abandon incomplete_attempt)
                   (quiz_attempts
                      (update_attempt (QuizAttempt.id incomplete_attempt)
                                      abandon db)))
    by (now apply in_update_attempt).
  rewrite Ho. cbn [db_after flashed resp session_after].
  split; [reflexivity |]. split; [exact Hab |].
  do 5 (split; [reflexivity |]).
  intros session' now' local_now' Havail'.
  destruct (attempts_by (User.id current_user) quiz_id true
              (quiz_attempts
                 (update_attempt (QuizAttempt.id incomplete_attempt)
                                 abandon db))) as [|completed more] eqn:E.
  - exfalso.
    assert (Hc : In (abandon incomplete_attempt)
                    (attempts_by (User.id current_user) quiz_id true
                       (quiz_attempts
                          (update_attempt (QuizAttempt.id incomplete_attempt)
                                          abandon db)))).
    { unfold attempts_by. apply filter_In. split; [exact Hab |].
      apply andb_true_iff in Hp. destruct Hp as [Hp _].
      unfold abandon. simpl. now rewrite Hp. }
    rewrite E in Hc. contradiction.
  - assert (Hc : In completed
                    (attempts_by (User.id current_user) quiz_id true
                       (quiz_attempts
                          (update_attempt (QuizAttempt.id incomplete_attempt)
                                          abandon db))))
      by (rewrite E; now left).
    unfold attempts_by in Hc. apply filter_In in Hc. destruct Hc as [Hc1 Hc2].
    unfold start_quiz_attempt.
    assert (Hquiz' : Quiz_get (update_attempt
                                 (QuizAttempt.id incomplete_attempt) abandon db)
                              quiz_id = Some quiz) by exact Hquiz.
    rewrite Hadmin, Hquiz', Havail', E. simpl.
    split; [reflexivity |]. exists completed. split; [exact Hc1 |].
    split; [| reflexivity].
    apply andb_true_iff in Hc2. destruct Hc2 as [_ Hc2].
    now apply Bool.eqb_prop in Hc2.
Qed.

(** ** The specification's scenarios, run *)

Example scenario_three_of_four :
  exists s,
    option_map QuizAttempt.score
      (QuizAttempt_get
         (db_after (submit_quiz Sample.db_in_progress Sample.taking
                                Sample.alice Sample.three_of_four 1)) 1)
    = Some (Some s)
    /\ (s == 75)%Q
    /\ map columns
         (quiz_responses
            (db_after (submit_quiz Sample.db_in_progress Sample.taking
                                   Sample.alice Sample.three_of_four 1)))
       = [(1, 1, 1); (1, 2, 3); (1, 3, 5)].
Proof.
  eexists. split; [vm_compute; reflexivity |]. split; reflexivity.
Qed.

Example scenario_no_questions_scores_zero :
  option_map QuizAttempt.score
    (QuizAttempt_get
       (db_after (submit_quiz
                    (set_quiz_attempts Sample.catalogue
                       [QuizAttempt.mk 1 2 2 0 None false])
                    Sample.taking Sample.alice Sample.three_of_four 2)) 1)
  = Some (Some 0%Q).
Proof. reflexivity. Qed.

Example scenario_malformed_field_is_a_server_error :
  submit_quiz Sample.db_in_progress Sample.taking Sample.alice
              (fun _ => Malformed) 1
  = mkOutcome Sample.db_in_progress Sample.taking [] InternalServerError.
Proof. reflexivity. Qed.

Example scenario_cleanup_boundaries :
  let now := Sample.instant 2025 11 4 10 0 0 in
  cleanup_incomplete_attempts_task (stale_db now) now
  = (set_quiz_responses
       (set_quiz_attempts Sample.catalogue
          [QuizAttempt.mk 2 2 2 (now - 24 * HOUR) None false;
           QuizAttempt.mk 3 2 3 (now - (23 * HOUR + 59 * MINUTE)) None false;
           QuizAttempt.mk 4 3 1 (now - 48 * HOUR) (Some 50%Q) true])
       [QuizResponse.mk 2 4 1 2], 1%nat).
Proof. reflexivity. Qed.

(** ** Starting a quiz without questions *)

(** Whatever the start request does, it does without reading the questions
    table: the guard [if not quiz.questions] of the info page has no
    counterpart in it. *)
Lemma start_quiz_attempt_ignores_questions db session current_user now
    local_now quiz_id qs os :
  let db0 := mkDB (users db) (quizzes db) qs os (quiz_attempts db)
                  (quiz_responses db) in
  quiz_attempts
    (db_after (start_quiz_attempt db0 session current_user now local_now
                                  quiz_id))
  = quiz_attempts
      (db_after (start_quiz_attempt db session current_user now local_now
                                    quiz_id)).
Proof.
  unfold start_quiz_attempt, Quiz_get. simpl. break_handler; reflexivity.
Qed.

(** The guards the start request does have: an attempt is created only for
    a non-admin user, an existing quiz that is available and open for
    registration, and a pair without completed attempt. *)
Lemma start_quiz_attempt_guards db session current_user now local_now quiz_id :
  db_after (start_quiz_attempt db session current_user now local_now quiz_id)
  <> db ->
  User.is_admin current_user = false
  /\ attempts_by (User.id current_user) quiz_id true (quiz_attempts db) = []
  /\ exists quiz, Quiz_get db quiz_id = Some quiz
                  /\ Quiz.is_available quiz now = true
                  /\ Quiz.registration_open quiz = true.
Proof.
  unfold start_quiz_attempt.
  destruct (User.is_admin current_user); [simpl; congruence |].
  destruct (Quiz_get db quiz_id) as [quiz|]; [| simpl; congruence].
  destruct (Quiz.is_available quiz now) eqn:Ha; [| simpl; congruence].
  simpl.
  destruct (attempts_by (User.id current_user) quiz_id true (quiz_attempts db));
    [| simpl; congruence].
  intros _. repeat split. exists quiz. now repeat split.
Qed.

(** C6, at the failing input.  Quiz 2 of the sample catalogue has no
    question.  The info page turns the user away with the "no questions
    yet" warning; the start request creates an attempt for it all the
    same. *)
Theorem start_without_questions :
  let now := Sample.instant 2025 11 3 10 0 0 in
  let o := start_quiz_attempt Sample.catalogue Sample.fresh Sample.alice
                              now now 2 in
  Quiz_questions Sample.catalogue Sample.draft = []
  /\ quiz_attempts Sample.catalogue = []
  /\ quiz_attempts (db_after o) = [QuizAttempt.mk 1 2 2 now None false]
  /\ resp o = Render (attempt_quiz_html Sample.draft
                        (QuizAttempt.mk 1 2 2 now None false))
  /\ flashed o = []
  /\ take_quiz Sample.catalogue Sample.fresh Sample.alice now 2
     = mkOutcome Sample.catalogue Sample.fresh
                 [(This_quiz_has_no_questions_yet, warning)]
                 (Redirect quiz_list).
Proof. repeat split. Qed.

(** ** The monthly report in December *)

Lemma filter_filter {A : Type} (p q : A -> bool) (l : list A) :
  filter q (filter p l) = filter (fun a => p a && q a) l.
Proof.
  induction l as [|x l IH]; simpl; [reflexivity |].
  destruct (p x); simpl; [destruct (q x) |]; now rewrite IH.
Qed.

(** From January to November the report selects the user's attempts of the
    window [first of the month, first of the next month). *)
Lemma monthly_window_before_december (user : User.t) (year month : Z)
    (first next : datetime) (rows : list QuizAttempt.t) :
  month < 12 ->
  mk_datetime year month 1 = Some first ->
  mk_datetime year (month + 1) 1 = Some next ->
  exists criteria,
    monthly_criteria user year month = Some criteria
    /\ Query_filter criteria rows
       = Some (filter (fun a => (QuizAttempt.user_id a =? User.id user)
                                && (first <=? QuizAttempt.date_taken a)
                                && (QuizAttempt.date_taken a <? next)) rows).
Proof.
  intros Hm Hfirst Hnext. unfold monthly_criteria.
  apply Z.ltb_lt in Hm. rewrite Hfirst, Hm, Hnext. simpl.
  eexists. split; [reflexivity |]. simpl.
  rewrite !filter_filter. f_equal. apply filter_ext. intros a.
  now rewrite andb_assoc.
Qed.

(** C9, the failing month.  Whenever the task runs in December, for any
    existing user and any database, the third argument of [filter] is a
    bare [datetime]; the query raises, the task boundary catches it, and
    the task returns the error status without mailing any report. *)
Theorem monthly_report_december (db : DB) (now : datetime) (user_id : Z)
    (user : User.t) :
  User_get db user_id = Some user ->
  dt_month now = 12 ->
  send_monthly_report_task db now user_id = (status_error, None).
Proof.
  intros Huser Hmonth. unfold send_monthly_report_task, monthly_criteria.
  rewrite Huser, Hmonth. simpl.
  destruct (mk_datetime (dt_year now) 12 1); [| reflexivity].
  destruct (mk_datetime (dt_year now + 1) 1 1); reflexivity.
Qed.

Lemma monthly_report_december_witness :
  User_get Sample.db_december 2 = Some Sample.alice
  /\ dt_month (Sample.instant 2025 12 1 9 0 0) = 12
  /\ send_monthly_report_task Sample.db_december
                              (Sample.instant 2025 12 1 9 0 0) 2
     = (status_error, None).
Proof.
  split; [reflexivity |]. split; [reflexivity |].
  apply (monthly_report_december Sample.db_december
           (Sample.instant 2025 12 1 9 0 0) 2 Sample.alice); reflexivity.
Defined.

(** The same attempt and run a month earlier are reported. *)
Example monthly_report_november :
  send_monthly_report_task Sample.db_november
                           (Sample.instant 2025 11 1 9 0 0) 2
  = (status_success 1,
     Some (mkReport 1 1 0 80 80 [Sample.november_attempt])).
Proof. reflexivity. Qed.

Example monthly_reports_skipped_mid_month :
  send_monthly_reports Sample.db_november (Sample.instant 2025 11 15 9 0 0)
  = (status_skipped, []).
Proof. reflexivity. Qed.

Example monthly_reports_first_of_month :
  send_monthly_reports Sample.db_november (Sample.instant 2025 11 1 9 0 0)
  = (status_success 1, [2]).
Proof. reflexivity. Qed.

Example monthly_report_no_data :
  send_monthly_report_task Sample.catalogue
                           (Sample.instant 2025 11 1 9 0 0) 2
  = (status_no_data, None).
Proof. reflexivity. Qed.

(** ** The theorems at concrete inputs *)

Ltac each_question H :=
  vm_compute in H;
  repeat (destruct H as [<- | H]; [vm_compute; first [exact I | eexists; reflexivity] |]);
  contradiction.



(** Against C5 as the specification words it: the response to the info
    page request is the info page, not a redirect to the results. *)
Lemma take_quiz_does_not_redirect_to_results :
  let o := take_quiz Sample.db_in_progress Sample.taking Sample.alice
                     (Sample.instant 2025 11 3 11 0 0) 1 in
  attempts_by 2 1 false (quiz_attempts Sample.db_in_progress)
  = [Sample.in_progress]
  /\ resp o = Render (take_quiz_html Sample.algebra)
  /\ forall attempt_id, resp o <> Redirect (quiz_results attempt_id).
Proof.
  intros o. split; [reflexivity |]. split; [reflexivity |].
  intros attempt_id. vm_compute. discriminate.
Qed.

Lemma take_quiz_abandons_witness :
  let o := take_quiz Sample.db_in_progress Sample.taking Sample.alice
                     (Sample.instant 2025 11 3 11 0 0) 1 in
  User.is_admin Sample.alice = false
  /\ Quiz_get Sample.db_in_progress 1 = Some Sample.algebra
  /\ Quiz.is_available Sample.algebra (Sample.instant 2025 11 3 11 0 0) = true
  /\ attempts_by 2 1 true (quiz_attempts Sample.db_in_progress) = []
  /\ Quiz_questions Sample.db_in_progress Sample.algebra
     = Question.mk 1 1 :: [Question.mk 2 1; Question.mk 3 1; Question.mk 4 1]
  /\ attempts_by 2 1 false (quiz_attempts Sample.db_in_progress)
     = Sample.in_progress :: []
  /\ quiz_attempts (db_after o)
     = [QuizAttempt.mk 1 2 1 (Sample.instant 2025 11 3 10 0 0) (Some 0%Q) true]
  /\ resp o = Render (take_quiz_html Sample.algebra).
Proof.
  intros o. do 6 (split; [reflexivity |]).
  pose proof (take_quiz_abandons Sample.db_in_progress Sample.taking
                Sample.alice (Sample.instant 2025 11 3 11 0 0) 1
                Sample.algebra Sample.in_progress [] (Question.mk 1 1)
                [Question.mk 2 1; Question.mk 3 1; Question.mk 4 1]
                eq_refl eq_refl eq_refl eq_refl eq_refl eq_refl)
    as [Hdb [_ [_ [_ [_ [Hresp _]]]]]].
  split; [| exact Hresp].
  fold o in Hdb. rewrite Hdb. reflexivity.
Defined.

(** Against C7 as the specification words it: Alice has completed the
    exam, asks to start it again after its window has closed, and is sent
    to the quiz list with the [This_quiz_has_ended] warning, not to her
    results. *)
Lemma start_after_completion_window_closed :
  let o := start_quiz_attempt Sample.db_sat_exam Sample.fresh Sample.alice
             (Sample.instant 2025 11 11 10 0 0)
             (Sample.instant 2025 11 11 10 0 0) 3 in
  attempts_by 2 3 true (quiz_attempts Sample.db_sat_exam) = [Sample.sat_exam]
  /\ flashed o = [(This_quiz_has_ended, warning)]
  /\ resp o = Redirect quiz_list
  /\ forall attempt_id, resp o <> Redirect (quiz_results attempt_id).
Proof.
  intros o. do 3 (split; [reflexivity |]).
  intros attempt_id. vm_compute. discriminate.
Qed.

Lemma start_after_completion_witness :
  let o := start_quiz_attempt Sample.db_sat_exam Sample.fresh Sample.alice
             (Sample.instant 2025 11 10 12 0 0)
             (Sample.instant 2025 11 10 12 0 0) 3 in
  attempts_by (User.id Sample.alice) 3 true (quiz_attempts Sample.db_sat_exam)
  = Sample.sat_exam :: []
  /\ db_after o = Sample.db_sat_exam
  /\ flashed o = [(Already_completed_cannot_retake, warning)]
  /\ resp o = Redirect (quiz_results 1).
Proof.
  intros o. split; [reflexivity |].
  pose proof (start_after_completion Sample.db_sat_exam Sample.fresh
                Sample.alice (Sample.instant 2025 11 10 12 0 0)
                (Sample.instant 2025 11 10 12 0 0) 3 Sample.sat_exam []
                eq_refl) as [Hdb [_ Hredirect]].
  destruct (Hredirect Sample.exam eq_refl eq_refl eq_refl) as [Hflash Hresp].
  split; [exact Hdb |]. split; [exact Hflash | exact Hresp].
Defined.

Lemma cleanup_spec_witness :
  let now := Sample.instant 2025 11 4 10 0 0 in
  unique_attempt_ids (stale_db now)
  /\ (length (quiz_attempts (stale_db now))
      = length (quiz_attempts
                  (fst (cleanup_incomplete_attempts_task (stale_db now) now)))
        + snd (cleanup_incomplete_attempts_task (stale_db now) now))%nat
  /\ snd (cleanup_incomplete_attempts_task (stale_db now) now) = 1%nat.
Proof.
  intros now.
  assert (Hnd : unique_attempt_ids (stale_db now)).
  { unfold unique_attempt_ids. simpl.
    repeat constructor; simpl; intuition discriminate. }
  split; [exact Hnd |]. split; [| reflexivity].
  exact (proj1 (proj2 (proj2 (cleanup_spec (stale_db now) now Hnd)))).
Defined.

Lemma foreign_option_counts_witness :
  let out := submit_quiz Sample.db_in_progress Sample.taking Sample.alice
                         Sample.foreign 1 in
  In (Question.mk 1 1) (Quiz_questions Sample.db_in_progress Sample.algebra)
  /\ Sample.foreign 1 = Numeral 9
  /\ Option_get Sample.db_in_progress 9 = Some (Option.mk 9 5 true)
  /\ Option.question_id (Option.mk 9 5 true) <> Question.id (Question.mk 1 1)
  /\ (exists r, In r (quiz_responses (db_after out))
                /\ QuizResponse.attempt_id r = 1
                /\ QuizResponse.question_id r = 1
                /\ QuizResponse.option_id r = 9)
  /\ (exists s, QuizAttempt_get (db_after out) 1
                = Some (QuizAttempt.mk 1 2 1 (Sample.instant 2025 11 3 10 0 0)
                                       (Some s) true)
                /\ (0 < s)%Q).
Proof.
  intros out.
  assert (Hwf : forall x,
            In x (Quiz_questions Sample.db_in_progress Sample.algebra) ->
            well_formed Sample.db_in_progress Sample.foreign x)
    by (intros x H; each_question H).
  assert (Hin : In (Question.mk 1 1)
                   (Quiz_questions Sample.db_in_progress Sample.algebra))
    by (now left).
  assert (Hforeign : Option.question_id (Option.mk 9 5 true)
                     <> Question.id (Question.mk 1 1)) by discriminate.
  assert (Hnz : 1 <> 0) by discriminate.
  split; [exact Hin |]. split; [reflexivity |]. split; [reflexivity |].
  split; [exact Hforeign |].
  pose proof (foreign_option_counts Sample.db_in_progress Sample.taking
                Sample.alice Sample.foreign 1 Sample.algebra 1
                Sample.in_progress (Question.mk 1 1) 9 (Option.mk 9 5 true)
                eq_refl eq_refl eq_refl Hnz
                eq_refl Hwf Hin eq_refl eq_refl Hforeign eq_refl)
    as [_ [_ [Hrow Hscore]]].
  split; [exact Hrow | exact Hscore].
Defined.

Example scenario_foreign_option :
  exists s,
    option_map QuizAttempt.score
      (QuizAttempt_get
         (db_after (submit_quiz Sample.db_in_progress Sample.taking
                                Sample.alice Sample.foreign 1)) 1)
    = Some (Some s)
    /\ (s == 25)%Q
    /\ map columns
         (quiz_responses
            (db_after (submit_quiz Sample.db_in_progress Sample.taking
                                   Sample.alice Sample.foreign 1)))
       = [(1, 1, 9)].
Proof.
  eexists. split; [vm_compute; reflexivity |]. split; reflexivity.
Qed.

(** * Further properties *)

(** ** Countdown and availability (models.py) *)

(** X1.  A quiz is unavailable exactly when it is scheduled and either has
    not started yet, in which case [time_until_start] is a positive
    duration, or has a closing instant that is over. *)
Theorem unavailable_iff_early_or_late (q : Quiz.t) (now : datetime) :
  Quiz.is_available q now = false <->
  (exists d, Quiz.time_until_start q now = Some d /\ 0 < d
             /\ Quiz.start_datetime q = Some (now + d))
  \/ (Quiz.is_scheduled q = true
      /\ exists e, Quiz.end_datetime q = Some e /\ e < now).
Proof.
  unfold Quiz.is_available, Quiz.time_until_start.
  destruct (Quiz.is_scheduled q); simpl.
  - destruct (Quiz.start_datetime q) as [s|], (Quiz.end_datetime q) as [e|];
      repeat match goal with
             | |- context [?a <? ?b] =>
                 let Hc := fresh "Hc" in destruct (Z.ltb_spec a b) as [Hc|Hc]
             | |- context [?a <=? ?b] =>
                 let Hc := fresh "Hc" in destruct (Z.leb_spec a b) as [Hc|Hc]
             end;
      (split;
       [ intros Hyp; try discriminate; try lia;
         first [ left; eexists; repeat split; [lia | f_equal; lia]
               | right; split; [reflexivity |];
                 eexists; split; [reflexivity | lia] ]
       | intros [[d [Hd [Hpos Hst]]] | [_ [e' [He Hlt]]]];
         try discriminate; try reflexivity;
         try (injection Hst as Hst); try (injection He as He); lia ]).
  - split; [discriminate |].
    intros [[d [Hd _]] | [Hs _]]; discriminate.
Qed.

(** X2.  Nothing checks that a schedule's start precedes its end: a
    scheduled quiz whose end lies before its start is available at no
    instant. *)
Theorem inverted_window_never_available (q : Quiz.t) (s e : datetime) :
  Quiz.is_scheduled q = true ->
  Quiz.start_datetime q = Some s ->
  Quiz.end_datetime q = Some e ->
  e < s ->
  forall now, Quiz.is_available q now = false.
Proof.
  intros Hsch Hs He Hlt now. unfold Quiz.is_available.
  rewrite Hsch, Hs, He. simpl.
  destruct (Z.ltb_spec now s); [reflexivity |].
  destruct (Z.ltb_spec e now); [reflexivity | lia].
Qed.

Lemma inverted_window_never_available_witness :
  let q := Quiz.mk 7 None 50 true (Some 200) (Some 100) in
  Quiz.is_scheduled q = true
  /\ Quiz.start_datetime q = Some 200
  /\ Quiz.end_datetime q = Some 100
  /\ 100 < 200
  /\ Quiz.is_available q 150 = false.
Proof.
  intros q. do 3 (split; [reflexivity |]). split; [lia |].
  apply (inverted_window_never_available q 200 100); reflexivity || lia.
Defined.



(** X4.  The info page and the start request flash at most one message, and
    never the texts "This quiz is not available." or "Registration for this
    quiz has closed.": an unscheduled quiz is always available and
    registration never closes, so those two branches cannot be reached. *)
Theorem flashes_of_take_and_start db session current_user now local_now
    quiz_id :
  let possible (flashes : list flash) :=
    flashes = []
    \/ flashes = [(Admins_cannot_attempt_quizzes, danger)]
    \/ (exists d h m, flashes = [(Scheduled_to_start_in d h m, warning)])
    \/ flashes = [(This_quiz_has_ended, warning)]
    \/ flashes = [(Already_completed_cannot_retake, warning)]
    \/ flashes = [(This_quiz_has_no_questions_yet, warning)]
    \/ flashes = [(Left_incomplete_recorded_as_submission, warning)] in
  possible (flashed (take_quiz db session current_user now quiz_id))
  /\ possible (flashed (start_quiz_attempt db session current_user now
                                           local_now quiz_id)).
Proof.
  assert (Hun : forall quiz, Quiz.is_available quiz now = false ->
            (exists d h m, unavailable_flash quiz now
                           = (Scheduled_to_start_in d h m, warning))
            \/ unavailable_flash quiz now = (This_quiz_has_ended, warning)).
  { intros quiz Hav. unfold unavailable_flash.
    assert (Hsch : Quiz.is_scheduled quiz = true).
    { unfold Quiz.is_available in Hav.
      destruct (Quiz.is_scheduled quiz); [reflexivity | discriminate]. }
    rewrite Hsch. destruct (Quiz.time_until_start quiz now) as [d|]; [| now right].
    destruct (d =? 0); [now right | left; eauto]. }
  intros possible. subst possible. cbv beta. split.
  - unfold take_quiz.
    destruct (User.is_admin current_user); [simpl; tauto |].
    destruct (Quiz_get db quiz_id) as [quiz|]; [| simpl; tauto].
    destruct (Quiz.is_available quiz now) eqn:Hav; simpl.
    + destruct (attempts_by _ _ true _); [| simpl; tauto].
      destruct (Quiz_questions db quiz); [simpl; tauto |].
      destruct (attempts_by _ _ false _); simpl; tauto.
    + destruct (Hun quiz Hav) as [[d [h [m E]]] | E]; rewrite E.
      * right. right. left. eauto.
      * tauto.
  - unfold start_quiz_attempt.
    destruct (User.is_admin current_user); [simpl; tauto |].
    destruct (Quiz_get db quiz_id) as [quiz|]; [| simpl; tauto].
    destruct (Quiz.is_available quiz now) eqn:Hav; simpl.
    + destruct (attempts_by _ _ true _); simpl; tauto.
    + destruct (Hun quiz Hav) as [[d [h [m E]]] | E]; rewrite E.
      * right. right. left. eauto.
      * tauto.
Qed.

(** ** One attempt per user and quiz *)




Lemma nothing_left_of_pair (db : DB) (user_id quiz_id : Z) :
  attempts_by user_id quiz_id true (quiz_attempts db) = [] ->
  attempts_of user_id quiz_id
    (quiz_attempts
       (delete_attempts (attempts_by user_id quiz_id false (quiz_attempts db))
                        db)) = [].
Proof.
  intros Hnone. unfold delete_attempts. simpl.
  destruct (attempts_of _ _ _) as [|a l] eqn:E; [reflexivity |]. exfalso.
  assert (Ha : In a (attempts_of user_id quiz_id
                       (filter (fun a => negb (mem (QuizAttempt.id a)
                          (map QuizAttempt.id
                             (attempts_by user_id quiz_id false
                                          (quiz_attempts db)))))
                          (quiz_attempts db))))
    by (rewrite E; now left).
  unfold attempts_of in Ha. apply filter_In in Ha. destruct Ha as [Ha Hp].
  apply filter_In in Ha. destruct Ha as [Ha Hn].
  destruct (QuizAttempt.is_completed a) eqn:Hc.
  - assert (Hin : In a (attempts_by user_id quiz_id true (quiz_attempts db))).
    { unfold attempts_by. apply filter_In. split; [exact Ha |].
      now rewrite Hp, Hc. }
    rewrite Hnone in Hin. contradiction.
  - apply negb_true_iff in Hn. apply not_true_iff_false in Hn. apply Hn.
    apply mem_In, in_map. unfold attempts_by. apply filter_In.
    split; [exact Ha |]. now rewrite Hp, Hc.
Qed.



Lemma step_scored_iff_completed (db db' : DB) :
  step db db' -> scored_iff_completed db -> scored_iff_completed db'.
Proof.
  intros Hstep Hinv.
  assert (Hupd : forall x s,
            scored_iff_completed
              (set_quiz_attempts db
                 (map (fun a => if QuizAttempt.id a =? x
                                then QuizAttempt.mk (QuizAttempt.id a)
                                       (QuizAttempt.user_id a)
                                       (QuizAttempt.quiz_id a)
                                       (QuizAttempt.date_taken a) (Some s) true
                                else a) (quiz_attempts db)))).
  { intros x s a Ha. simpl in Ha. apply in_map_iff in Ha.
    destruct Ha as [b [E Hb]]. destruct (QuizAttempt.id b =? x).
    - subst a. simpl. split; [discriminate | reflexivity].
    - subst a. now apply Hinv. }
  assert (Hsub : forall d, (forall a, In a (quiz_attempts d) ->
                                      In a (quiz_attempts db)) ->
                           scored_iff_completed d).
  { intros d Hd a Ha. apply Hinv, Hd, Ha. }
  destruct Hstep.
  - unfold take_quiz. break_handler; try exact Hinv.
    intros a Ha. exact (Hupd _ 0%Q a Ha).
  - destruct (start_quiz_attempt_cases db session current_user now local_now
                quiz_id) as [E | [E _]]; [now rewrite E |].
    intros a Ha. rewrite E in Ha. unfold started_attempts in Ha.
    apply in_app_or in Ha. destruct Ha as [Ha | [<- | []]].
    + unfold delete_attempts in Ha. simpl in Ha. apply filter_In in Ha.
      apply Hinv. tauto.
    + simpl. split; [discriminate | congruence].
  - unfold submit_quiz. break_handler; try exact Hinv.
    intros a Ha. simpl in Ha. eapply (Hupd _ _ a). exact Ha.
  - apply Hsub. intros a Ha.
    unfold cleanup_incomplete_attempts_task, delete_attempts in Ha.
    simpl in Ha. apply filter_In in Ha. tauto.
  - apply Hsub. intros a Ha. unfold delete_attempts in Ha. simpl in Ha.
    apply filter_In in Ha. tauto.
  - intros a Ha. apply Hinv. exact Ha.
Qed.

(** X6.  An attempt carries a score exactly when it is completed: the
    start request writes neither, the info page and the submission write
    both, and this is kept through every operation. *)
Theorem score_present_iff_completed (init db : DB) :
  scored_iff_completed init -> reachable init db -> scored_iff_completed db.
Proof.
  intros Hinit Hreach. induction Hreach as [| d d' _ IH Hstep]; [exact Hinit |].
  exact (step_scored_iff_completed d d' Hstep IH).
Qed.

(** ** Start, submit, and the second start *)

Lemma next_id_positive {A : Type} (key : A -> Z) (l : list A) :
  0 < next_id key l.
Proof.
  unfold next_id.
  assert (0 <= fold_right (fun r m => Z.max (key r) m) 0 l)
    by (induction l; simpl; lia).
  lia.
Qed.

Lemma find_last_fresh {A : Type} (key : A -> Z) (k : Z) (l : list A) (a : A) :
  ~ In k (map key l) -> key a = k ->
  find (fun r => key r =? k) (l ++ [a]) = Some a.
Proof.
  intros Hfresh Hk. induction l as [|x l IH]; simpl.
  - apply Z.eqb_eq in Hk. now rewrite Hk.
  - destruct (Z.eqb_spec (key x) k) as [E | _].
    + exfalso. apply Hfresh. left. exact E.
    + apply IH. intros Hin. apply Hfresh. now right.
Qed.

Lemma update_misses_fresh (k : Z) (f : QuizAttempt.t -> QuizAttempt.t)
    (l : list QuizAttempt.t) :
  ~ In k (map QuizAttempt.id l) ->
  map (fun a => if QuizAttempt.id a =? k then f a else a) l = l.
Proof.
  intros Hfresh. induction l as [|x l IH]; simpl; [reflexivity |].
  destruct (Z.eqb_spec (QuizAttempt.id x) k) as [E | _].
  - exfalso. apply Hfresh. left. exact E.
  - f_equal. apply IH. intros Hin. apply Hfresh. now right.
Qed.

Lemma attempts_by_within_of (u q : Z) (b : bool) (l : list QuizAttempt.t) :
  attempts_of u q l = [] -> attempts_by u q b l = [].
Proof.
  unfold attempts_of, attempts_by. induction l as [|x l IH]; simpl;
    [reflexivity |].
  destruct ((QuizAttempt.user_id x =? u) && (QuizAttempt.quiz_id x =? q));
    simpl; [discriminate | exact IH].
Qed.

(** X7.  The life of an attempt.  For a non-admin user without completed
    attempt on an available quiz: the start request creates an attempt and
    puts its key in the session; a well-formed submission with that session
    completes this very attempt with the score of the form and redirects to
    its results, which the results page then shows to the user; the attempt
    is the only row of the pair; and a further start request is turned
    away, leaving the database as it is, towards those same results. *)
Theorem start_submit_no_retake db session current_user now local_now now'
    local_now' request_form quiz_id quiz :
  User.is_admin current_user = false ->
  Quiz_get db quiz_id = Some quiz ->
  Quiz.is_available quiz now = true ->
  Quiz.is_available quiz now' = true ->
  attempts_by (User.id current_user) quiz_id true (quiz_attempts db) = [] ->
  (forall question, In question (Quiz_questions db quiz) ->
                    well_formed db request_form question) ->
  let o1 := start_quiz_attempt db session current_user now local_now quiz_id in
  let o2 := submit_quiz (db_after o1) (session_after o1) current_user
                        request_form quiz_id in
  let o3 := start_quiz_attempt (db_after o2) (session_after o2) current_user
                               now' local_now' quiz_id in
  let score :=
    score_percentage
      (Z.of_nat (length (filter (counts_correct db request_form)
                                (Quiz_questions db quiz))))
      (Z.of_nat (length (Quiz_questions db quiz))) in
  exists attempt_id,
    let created :=
      QuizAttempt.mk attempt_id (User.id current_user) quiz_id local_now
                     None false in
    let completed :=
      QuizAttempt.mk attempt_id (User.id current_user) quiz_id local_now
                     (Some score) true in
    resp o1 = Render (attempt_quiz_html quiz created)
    /\ current_attempt_id (session_after o1) = Some attempt_id
    /\ resp o2 = Redirect (quiz_results attempt_id)
    /\ current_attempt_id (session_after o2) = None
    /\ quiz_results_view (db_after o2) current_user attempt_id
       = Results_page completed
    /\ attempts_of (User.id current_user) quiz_id (quiz_attempts (db_after o2))
       = [completed]
    /\ db_after o3 = db_after o2
    /\ resp o3 = Redirect (quiz_results attempt_id).
Proof.
  intros Hadmin Hquiz Hav Hav' Hnone Hwf o1 o2 o3 score.
  set (kept := quiz_attempts
                 (delete_attempts
                    (attempts_by (User.id current_user) quiz_id false
                                 (quiz_attempts db)) db)).
  set (aid := next_id QuizAttempt.id kept).
  set (created := QuizAttempt.mk aid (User.id current_user) quiz_id local_now
                                 None false).
  set (completed := QuizAttempt.mk aid (User.id current_user) quiz_id
                                   local_now (Some score) true).
  set (db1 := delete_attempts
                (attempts_by (User.id current_user) quiz_id false
                             (quiz_attempts db)) db).
  set (db2 := set_quiz_attempts db1 (kept ++ [created])).
  assert (Ho1 : o1 = mkOutcome db2
                       (mkSession (Some aid)
                          (match Quiz.time_limit quiz with
                           | Some l => if l =? 0 then None else Some (l * 60)
                           | None => None
                           end))
                       [] (Render (attempt_quiz_html quiz created))).
  { subst o1. unfold start_quiz_attempt.
    rewrite Hadmin, Hquiz, Hav, Hnone. reflexivity. }
  assert (Hfresh : ~ In aid (map QuizAttempt.id kept))
    by apply next_id_fresh.
  assert (Hnz : aid <> 0) by (pose proof (next_id_positive QuizAttempt.id kept);
                              subst aid; lia).
  assert (Hget2 : QuizAttempt_get db2 aid = Some created)
    by (unfold QuizAttempt_get, db2; simpl; now apply find_last_fresh).
  assert (Hleft : attempts_of (User.id current_user) quiz_id kept = [])
    by (apply nothing_left_of_pair; exact Hnone).
  set (db3 :=
         update_attempt aid
           (fun a => QuizAttempt.set_is_completed
                       (QuizAttempt.set_score a (Some score)) true)
           (set_quiz_responses db2
              (insert_responses (quiz_responses db2)
                 (flat_map (contributed request_form aid)
                           (Quiz_questions db quiz))))).
  assert (Ho2 : o2 = mkOutcome db3 (mkSession None None)
                       [(Quiz_submitted score, success)]
                       (Redirect (quiz_results aid))).
  { subst o2. rewrite Ho1. cbn [db_after session_after].
    exact (submit_quiz_outcome db2
             (mkSession (Some aid)
                (match Quiz.time_limit quiz with
                 | Some l => if l =? 0 then None else Some (l * 60)
                 | None => None
                 end))
             current_user request_form quiz_id quiz
             aid created Hadmin Hquiz eq_refl Hnz Hget2 Hwf). }
  assert (Hatt3 : quiz_attempts db3 = kept ++ [completed]).
  { unfold db3, update_attempt, set_quiz_responses, db2. simpl.
    rewrite map_app, update_misses_fresh by exact Hfresh. simpl.
    subst aid. now rewrite Z.eqb_refl. }
  assert (Hof3 : attempts_of (User.id current_user) quiz_id (quiz_attempts db3)
                 = [completed]).
  { rewrite Hatt3. unfold attempts_of in *. rewrite filter_app, Hleft. simpl.
    now rewrite !Z.eqb_refl. }
  assert (Hby3 : attempts_by (User.id current_user) quiz_id true
                             (quiz_attempts db3) = [completed]).
  { rewrite Hatt3. unfold attempts_by. rewrite filter_app.
    fold (attempts_by (User.id current_user) quiz_id true kept).
    rewrite (attempts_by_within_of _ _ true kept Hleft). simpl.
    now rewrite !Z.eqb_refl. }
  exists aid. cbv zeta. rewrite Ho2, Ho1. cbn [resp session_after db_after
                                               current_attempt_id].
  do 4 (split; [reflexivity |]). split; [| split; [exact Hof3 |]].
  - unfold quiz_results_view, QuizAttempt_get. rewrite Hatt3.
    rewrite (find_last_fresh QuizAttempt.id aid kept completed Hfresh eq_refl).
    simpl. now rewrite Z.eqb_refl.
  - subst o3. rewrite Ho2. cbn [db_after session_after].
    unfold start_quiz_attempt.
    assert (Hquiz3 : Quiz_get db3 quiz_id = Some quiz) by exact Hquiz.
    rewrite Hadmin, Hquiz3, Hav', Hby3. simpl. split; reflexivity.
Qed.

(** X8.  A submission clears the session, so submitting again is answered
    "Invalid quiz attempt." and writes nothing: a score, once recorded by a
    submission, cannot be replaced by repeating the request. *)
Theorem resubmission_rejected db session current_user request_form quiz_id
    attempt_id request_form' quiz_id' :
  resp (submit_quiz db session current_user request_form quiz_id)
  = Redirect (quiz_results attempt_id) ->
  let o := submit_quiz db session current_user request_form quiz_id in
  let o' := submit_quiz (db_after o) (session_after o) current_user
                        request_form' quiz_id' in
  db_after o' = db_after o
  /\ session_after o' = session_after o
  /\ (Quiz_get db quiz_id' <> None ->
      flashed o' = [(Invalid_quiz_attempt, danger)]
      /\ resp o' = Redirect quiz_list).
Proof.
  intros Hresp o o'.
  assert (Hshape : User.is_admin current_user = false
                   /\ session_after o = mkSession None None
                   /\ quizzes (db_after o) = quizzes db).
  { subst o. revert Hresp. unfold submit_quiz.
    destruct (User.is_admin current_user); [discriminate |].
    destruct (Quiz_get db quiz_id); [| discriminate].
    destruct (current_attempt_id session) as [aid|]; [| discriminate].
    destruct (aid =? 0); [discriminate |].
    destruct (score_loop _ _ _ _ _ _) as [[added c]|]; [| discriminate].
    destruct (QuizAttempt_get db aid); [| discriminate].
    intros _. repeat split. }
  destruct Hshape as [Hadmin [Hsess Hq]].
  assert (Ho' : o' = match Quiz_get db quiz_id' with
                     | Some _ =>
                         mkOutcome (db_after o) (session_after o)
                                   [(Invalid_quiz_attempt, danger)]
                                   (Redirect quiz_list)
                     | None => mkOutcome (db_after o) (session_after o) []
                                         Abort404
                     end).
  { subst o'. unfold submit_quiz. rewrite Hadmin, Hsess.
    unfold Quiz_get. rewrite Hq.
    destruct (find _ (quizzes db)); reflexivity. }
  rewrite Ho'. destruct (Quiz_get db quiz_id'); simpl.
  - repeat split; reflexivity.
  - split; [reflexivity |]. split; [reflexivity |].
    intros Hno. now contradiction Hno.
Qed.

Lemma get_after_completion (db : DB) (attempt_id : Z)
    (f : QuizAttempt.t -> QuizAttempt.t) (a : QuizAttempt.t)
    (rows : list QuizResponse.t) :
  (forall b, QuizAttempt.id (f b) = QuizAttempt.id b) ->
  QuizAttempt_get db attempt_id = Some a ->
  QuizAttempt_get (update_attempt attempt_id f (set_quiz_responses db rows))
                  attempt_id
  = Some (f a).
Proof.
  intros Hf Hget. unfold QuizAttempt_get, update_attempt, set_quiz_responses.
  cbn [quiz_attempts set_quiz_attempts]. now apply get_after_update.
Qed.

(** X9.  The zero written by the info page is not final.  The info page
    leaves the session untouched, so when the browser that started the
    attempt still holds its key, a later well-formed submission replaces
    the abandonment score 0 by the score of the submitted form. *)
Theorem abandonment_overwritten db session current_user now quiz_id quiz
    incomplete_attempt others question questions_rest request_form :
  User.is_admin current_user = false ->
  Quiz_get db quiz_id = Some quiz ->
  Quiz.is_available quiz now = true ->
  attempts_by (User.id current_user) quiz_id true (quiz_attempts db) = [] ->
  Quiz_questions db quiz = question :: questions_rest ->
  attempts_by (User.id current_user) quiz_id false (quiz_attempts db)
  = incomplete_attempt :: others ->
  QuizAttempt_get db (QuizAttempt.id incomplete_attempt)
  = Some incomplete_attempt ->
  current_attempt_id session = Some (QuizAttempt.id incomplete_attempt) ->
  QuizAttempt.id incomplete_attempt <> 0 ->
  (forall x, In x (Quiz_questions db quiz) -> well_formed db request_form x) ->
  let o1 := take_quiz db session current_user now quiz_id in
  let o2 := submit_quiz (db_after o1) (session_after o1) current_user
                        request_form quiz_id in
  let score :=
    score_percentage
      (Z.of_nat (length (filter (counts_correct db request_form)
                                (Quiz_questions db quiz))))
      (Z.of_nat (length (Quiz_questions db quiz))) in
  QuizAttempt_get (db_after o1) (QuizAttempt.id incomplete_attempt)
  = Some (abandon incomplete_attempt)
  /\ resp o2 = Redirect (quiz_results (QuizAttempt.id incomplete_attempt))
  /\ QuizAttempt_get (db_after o2) (QuizAttempt.id incomplete_attempt)
     = Some (QuizAttempt.set_score (abandon incomplete_attempt) (Some score)).
Proof.
  intros Hadmin Hquiz Hav Hnone Hqs Hinc Hget Hsess Hnz Hwf o1 o2 score.
  set (aid := QuizAttempt.id incomplete_attempt) in *.
  assert (Ho1 : o1 = mkOutcome (update_attempt aid abandon db) session
                       [(Left_incomplete_recorded_as_submission, warning)]
                       (Render (take_quiz_html quiz))).
  { subst o1. unfold take_quiz.
    now rewrite Hadmin, Hquiz, Hav, Hnone, Hqs, Hinc. }
  assert (Hget1 : QuizAttempt_get (update_attempt aid abandon db) aid
                  = Some (abandon incomplete_attempt)).
  { unfold QuizAttempt_get, update_attempt. simpl.
    apply get_after_update; [reflexivity | exact Hget]. }
  subst o2. rewrite Ho1. cbn [db_after session_after].
  split; [exact Hget1 |].
  rewrite (submit_quiz_outcome (update_attempt aid abandon db) session
             current_user request_form quiz_id quiz aid
             (abandon incomplete_attempt) Hadmin Hquiz Hsess Hnz Hget1 Hwf).
  cbn [resp db_after]. split; [reflexivity |].
  etransitivity;
    [apply get_after_completion; [reflexivity | exact Hget1] | reflexivity].
Qed.

(** ** Submissions that fail *)

Lemma score_loop_fails (db : DB) (request_form : form) (attempt_id : Z)
    (qs : list Question.t) :
  forall added correct_answers,
    score_loop db request_form attempt_id qs added correct_answers = None
    <-> exists question, In question qs
                         /\ ~ well_formed db request_form question.
Proof.
  induction qs as [|x rest IH]; intros added c.
  - simpl. split; [discriminate | intros [q [[] _]]].
  - cbn [score_loop]. unfold well_formed at 1.
    split.
    + destruct (request_form (Question.id x)) as [| | |n] eqn:Ef.
      * intros H. apply IH in H. destruct H as [q [Hq Hn]].
        exists q. split; [now right | exact Hn].
      * intros H. apply IH in H. destruct H as [q [Hq Hn]].
        exists q. split; [now right | exact Hn].
      * intros _. exists x. split; [now left |].
        unfold well_formed. rewrite Ef. tauto.
      * destruct (Option_get db n) as [o|] eqn:Eo.
        -- intros H. apply IH in H. destruct H as [q [Hq Hn]].
           exists q. split; [now right | exact Hn].
        -- intros _. exists x. split; [now left |].
           unfold well_formed. rewrite Ef, Eo. intros [o Ho]. discriminate.
    + intros [q [[<- | Hq] Hn]].
      * unfold well_formed in Hn.
        destruct (request_form (Question.id x)) as [| | |n];
          try (exfalso; apply Hn; exact I); [reflexivity |].
        destruct (Option_get db n) as [o|]; [| reflexivity].
        exfalso. apply Hn. now exists o.
      * assert (Hex : exists question,
                  In question rest /\ ~ well_formed db request_form question)
          by (exists q; now split).
        destruct (request_form (Question.id x)) as [| | |n];
          try (now apply IH); [reflexivity |].
        destruct (Option_get db n); [now apply IH | reflexivity].
Qed.

(** X10.  A submission ends in a server error exactly when it gets past the
    admin, quiz and session guards and then meets either a field of a
    question that is not an integer or names no option, or a session key
    without attempt row.  Such a submission writes nothing: database and
    session are as before, and no message is flashed. *)
Theorem failed_submission db session current_user request_form quiz_id :
  let o := submit_quiz db session current_user request_form quiz_id in
  (resp o = InternalServerError <->
   User.is_admin current_user = false
   /\ exists quiz attempt_id,
        Quiz_get db quiz_id = Some quiz
        /\ current_attempt_id session = Some attempt_id
        /\ attempt_id <> 0
        /\ ((exists question, In question (Quiz_questions db quiz)
                              /\ ~ well_formed db request_form question)
            \/ QuizAttempt_get db attempt_id = None))
  /\ (resp o = InternalServerError ->
      db_after o = db /\ session_after o = session /\ flashed o = []).
Proof.
  intros o. subst o. unfold submit_quiz.
  destruct (User.is_admin current_user).
  { simpl. split; [split; [discriminate | intros [H _]; discriminate]
                  | discriminate]. }
  destruct (Quiz_get db quiz_id) as [quiz|].
  2:{ simpl. split; [split; [discriminate |] | discriminate].
      intros [_ [q [a [H _]]]]. discriminate. }
  destruct (current_attempt_id session) as [aid|].
  2:{ simpl. split; [split; [discriminate |] | discriminate].
      intros [_ [q [a [_ [H _]]]]]. discriminate. }
  destruct (Z.eqb_spec aid 0) as [E0 | Hnz].
  { simpl. split; [split; [discriminate |] | discriminate].
    intros [_ [q [a [_ [H [Ha _]]]]]]. injection H as <-. contradiction. }
  destruct (score_loop db request_form aid (Quiz_questions db quiz) [] 0)
    as [[added c]|] eqn:Eloop.
  - destruct (QuizAttempt_get db aid) as [attempt|] eqn:Eget; simpl.
    + split; [split; [discriminate |] | discriminate].
      intros [_ [q [a [Hq [Ha [_ [Hbad | Hno]]]]]]].
      * injection Hq as <-. injection Ha as <-.
        apply (score_loop_fails db request_form aid _ [] 0) in Hbad.
        congruence.
      * injection Ha as <-. congruence.
    + split; [| auto]. split; [| reflexivity].
      intros _. split; [reflexivity |]. exists quiz, aid.
      repeat split; auto.
  - simpl. split; [| auto]. split; [| reflexivity].
    intros _. split; [reflexivity |]. exists quiz, aid.
    repeat split; auto. left.
    now apply (score_loop_fails db request_form aid _ [] 0).
Qed.

(** ** Cleaning up twice *)

Lemma filter_all {A : Type} (p : A -> bool) (l : list A) :
  (forall a, In a l -> p a = true) -> filter p l = l.
Proof.
  induction l as [|x l IH]; simpl; [reflexivity |].
  intros H. rewrite (H x (or_introl eq_refl)). f_equal.
  apply IH. intros a Ha. apply H. now right.
Qed.

Lemma filter_none {A : Type} (p : A -> bool) (l : list A) :
  (forall a, In a l -> p a = false) -> filter p l = [].
Proof.
  induction l as [|x l IH]; simpl; [reflexivity |].
  intros H. rewrite (H x (or_introl eq_refl)).
  apply IH. intros a Ha. apply H. now right.
Qed.

(** X11.  The cleanup job is idempotent: run again at the same or an
    earlier clock reading on the database it has left, it finds nothing to
    remove, returns the count 0 and leaves the database as it is. *)
Theorem cleanup_idempotent (db : DB) (now now' : datetime) :
  now' <= now ->
  let db1 := fst (cleanup_incomplete_attempts_task db now) in
  cleanup_incomplete_attempts_task db1 now' = (db1, 0%nat).
Proof.
  intros Hle db1.
  assert (Hnone :
    filter (fun a => Bool.eqb (QuizAttempt.is_completed a) false
                     && (QuizAttempt.date_taken a <? now' - timedelta_hours 24))
           (quiz_attempts db1) = []).
  { apply filter_none. intros a Ha.
    destruct (Bool.eqb (QuizAttempt.is_completed a) false
              && (QuizAttempt.date_taken a <? now' - timedelta_hours 24))
      eqn:E; [| reflexivity].
    exfalso. subst db1.
    unfold cleanup_incomplete_attempts_task, delete_attempts in Ha.
    cbn [fst quiz_attempts] in Ha. apply filter_In in Ha.
    destruct Ha as [Ha Hn]. apply negb_true_iff in Hn.
    apply not_true_iff_false in Hn. apply Hn. apply mem_In, in_map.
    apply filter_In. split; [exact Ha |].
    apply andb_true_iff in E. destruct E as [E1 E2].
    apply andb_true_iff. split; [exact E1 |].
    apply Z.ltb_lt in E2. apply Z.ltb_lt. lia. }
  unfold cleanup_incomplete_attempts_task at 1. cbv zeta. rewrite Hnone.
  unfold delete_attempts. cbn [map length].
  rewrite !filter_all by reflexivity.
  subst db1. unfold cleanup_incomplete_attempts_task, delete_attempts.
  reflexivity.
Qed.

(** ** Ordering by date *)

Lemma insert_desc_perm (a : QuizAttempt.t) (l : list QuizAttempt.t) :
  Permutation (a :: l) (insert_desc a l).
Proof.
  induction l as [|b l IH]; simpl; [apply Permutation_refl |].
  destruct (QuizAttempt.date_taken b <=? QuizAttempt.date_taken a).
  - apply Permutation_refl.
  - eapply perm_trans; [apply perm_swap |]. now apply perm_skip.
Qed.

Lemma order_by_perm (l : list QuizAttempt.t) :
  Permutation l (order_by_date_taken_desc l).
Proof.
  unfold order_by_date_taken_desc.
  induction l as [|a l IH]; simpl; [apply Permutation_refl |].
  eapply perm_trans; [apply perm_skip, IH | apply insert_desc_perm].
Qed.

Lemma insert_desc_sorted (a : QuizAttempt.t) (l : list QuizAttempt.t) :
  StronglySorted no_later l -> StronglySorted no_later (insert_desc a l).
Proof.
  induction l as [|b l IH]; simpl; intros Hs.
  - constructor; constructor.
  - apply StronglySorted_inv in Hs. destruct Hs as [Hs Hb].
    destruct (Z.leb_spec (QuizAttempt.date_taken b) (QuizAttempt.date_taken a))
      as [Hle | Hgt].
    + constructor; [constructor; assumption |].
      constructor; [exact Hle |].
      rewrite Forall_forall in *. intros x Hx. specialize (Hb x Hx).
      unfold no_later in *. lia.
    + constructor; [now apply IH |].
      rewrite Forall_forall in *. intros x Hx.
      apply (Permutation_in _ (Permutation_sym (insert_desc_perm a l))) in Hx.
      destruct Hx as [<- | Hx]; [unfold no_later; lia | now apply Hb].
Qed.

Lemma order_by_sorted (l : list QuizAttempt.t) :
  StronglySorted no_later (order_by_date_taken_desc l).
Proof.
  unfold order_by_date_taken_desc.
  induction l as [|a l IH]; simpl; [constructor | now apply insert_desc_sorted].
Qed.

Lemma sorted_prefix_first (l1 l2 : list QuizAttempt.t) :
  StronglySorted no_later (l1 ++ l2) ->
  StronglySorted no_later l1
  /\ forall a b, In a l1 -> In b l2 -> no_later a b.
Proof.
  induction l1 as [|x l1 IH]; simpl; intros Hs.
  - split; [constructor | intros a b []].
  - apply StronglySorted_inv in Hs. destruct Hs as [Hs Hx].
    destruct (IH Hs) as [Hs1 Hcross]. rewrite Forall_forall in Hx. split.
    + constructor; [exact Hs1 |]. rewrite Forall_forall.
      intros y Hy. apply Hx. apply in_or_app. now left.
    + intros a b [<- | Ha] Hb.
      * apply Hx. apply in_or_app. now right.
      * now apply Hcross.
Qed.

(** The [n] first rows of a date-ordered query: in order, and no row left
    out is later than a row kept. *)
Lemma latest_rows (n : nat) (rows : list QuizAttempt.t) :
  let latest := firstn n (order_by_date_taken_desc rows) in
  StronglySorted no_later latest
  /\ (forall a, In a latest -> In a rows)
  /\ (forall a b, In a latest -> In b rows -> ~ In b latest -> no_later a b)
  /\ length latest = Nat.min n (length rows).
Proof.
  intros latest. subst latest.
  pose proof (order_by_sorted rows) as Hs.
  pose proof (order_by_perm rows) as Hp.
  rewrite <- (firstn_skipn n (order_by_date_taken_desc rows)) in Hs.
  destruct (sorted_prefix_first _ _ Hs) as [Hs1 Hcross].
  split; [exact Hs1 |]. split; [| split].
  - intros a Ha. apply (Permutation_in _ (Permutation_sym Hp)).
    rewrite <- (firstn_skipn n). apply in_or_app. now left.
  - intros a b Ha Hb Hnot. apply Hcross; [exact Ha |].
    apply (Permutation_in _ Hp) in Hb.
    rewrite <- (firstn_skipn n) in Hb. apply in_app_or in Hb.
    destruct Hb as [Hb | Hb]; [contradiction | exact Hb].
  - rewrite length_firstn. now rewrite (Permutation_length Hp).
Qed.

(** X12.  The dashboard lists at most five attempts, all of the user,
    latest first, and no attempt of the user that is left out is later than
    a listed one; it lists exactly the quizzes available at the moment, any
    unscheduled quiz among them. *)
Theorem user_dashboard_lists (db : DB) (current_user : User.t)
    (now : datetime) :
  let recent := fst (user_dashboard_view db current_user now) in
  let available := snd (user_dashboard_view db current_user now) in
  let mine :=
    filter (fun a => QuizAttempt.user_id a =? User.id current_user)
           (quiz_attempts db) in
  length recent = Nat.min 5 (length mine)
  /\ StronglySorted no_later recent
  /\ (forall a, In a recent ->
                In a (quiz_attempts db)
                /\ QuizAttempt.user_id a = User.id current_user)
  /\ (forall a b, In a recent -> In b (quiz_attempts db) ->
                  QuizAttempt.user_id b = User.id current_user ->
                  ~ In b recent -> no_later a b)
  /\ (forall quiz, In quiz available <->
                   In quiz (quizzes db) /\ Quiz.is_available quiz now = true)
  /\ (forall quiz, In quiz (quizzes db) -> Quiz.is_scheduled quiz = false ->
                   In quiz available).
Proof.
  intros recent available mine.
  destruct (latest_rows 5 mine) as [Hs [Hin [Hlate Hlen]]].
  assert (Hav : forall quiz, In quiz available <->
                  In quiz (quizzes db) /\ Quiz.is_available quiz now = true).
  { intros quiz. subst available. unfold user_dashboard_view. cbn [snd].
    rewrite filter_In. unfold Quiz.registration_open.
    now rewrite andb_true_r. }
  split; [exact Hlen |]. split; [exact Hs |]. split; [| split; [| split]].
  - intros a Ha. apply Hin in Ha. subst mine. apply filter_In in Ha.
    destruct Ha as [Ha E]. apply Z.eqb_eq in E. now split.
  - intros a b Ha Hb Hmine Hnot. apply Hlate; [exact Ha | | exact Hnot].
    subst mine. apply filter_In. split; [exact Hb |]. now apply Z.eqb_eq.
  - exact Hav.
  - intros quiz Hq Hun. apply Hav. split; [exact Hq |].
    now apply is_available_unscheduled.
Qed.

(** ** The monthly report outside December *)

Lemma forallb_perm {A : Type} (p : A -> bool) (l l' : list A) :
  Permutation l l' -> (forall a, In a l -> p a = true) -> forallb p l' = true.
Proof.
  intros Hp H. apply forallb_forall. intros a Ha. apply H.
  now apply (Permutation_in _ (Permutation_sym Hp)).
Qed.

(** X13.  From January to November, for a user whose attempts of the month
    have their quiz: without attempt in the window the task answers
    [no_data] and mails nothing; with attempts, it answers [error] and
    mails nothing as soon as one of the five latest has no score (an
    attempt in progress), and otherwise mails a report whose total is the
    number of attempts in the window, whose passed and failed counts add up
    to it, and whose recent list is the five latest attempts. *)
Theorem monthly_report_before_december (db : DB) (now : datetime)
    (user_id : Z) (user : User.t) (first next : datetime) :
  User_get db user_id = Some user ->
  dt_month now < 12 ->
  mk_datetime (dt_year now) (dt_month now) 1 = Some first ->
  mk_datetime (dt_year now) (dt_month now + 1) 1 = Some next ->
  let window := filter (in_month user first next) (quiz_attempts db) in
  let latest := firstn 5 (order_by_date_taken_desc window) in
  (forall a, In a window -> has_quiz db a = true) ->
  (window = [] ->
   send_monthly_report_task db now user_id = (status_no_data, None))
  /\ (window <> [] ->
      (exists a, In a latest /\ QuizAttempt.score a = None) ->
      send_monthly_report_task db now user_id = (status_error, None))
  /\ (window <> [] ->
      (forall a, In a latest -> QuizAttempt.score a <> None) ->
      exists r,
        send_monthly_report_task db now user_id
        = (status_success (Z.of_nat (length window)), Some r)
        /\ total_attempts r = Z.of_nat (length window)
        /\ passed_attempts r + failed_attempts r = total_attempts r
        /\ 0 <= passed_attempts r <= total_attempts r
        /\ recent r = latest)
  /\ (forall a b, In a latest -> In b window -> ~ In b latest ->
                  no_later a b).
Proof.
  intros Huser Hm Hfirst Hnext window latest Hquiz.
  destruct (monthly_window_before_december user (dt_year now) (dt_month now)
              first next (quiz_attempts db) Hm Hfirst Hnext)
    as [criteria [Hcrit Hfilter]].
  fold (in_month user first next) in Hfilter.
  change (filter (fun a => in_month user first next a) (quiz_attempts db))
    with window in Hfilter.
  pose proof (order_by_perm window) as Hperm.
  assert (Hlen : length (order_by_date_taken_desc window) = length window)
    by (symmetry; apply Permutation_length, Hperm).
  assert (Hall : forallb (has_quiz db) (order_by_date_taken_desc window) = true)
    by (eapply forallb_perm; [exact Hperm | exact Hquiz]).
  assert (Htask :
    send_monthly_report_task db now user_id
    = match order_by_date_taken_desc window with
      | [] => (status_no_data, None)
      | _ :: _ =>
          if existsb (fun a => match QuizAttempt.score a with
                               | None => true
                               | Some _ => false
                               end) latest
          then (status_error, None)
          else
            let attempts := order_by_date_taken_desc window in
            let total := Z.of_nat (length attempts) in
            let passed :=
              Z.of_nat (length (filter (attempt_passed db) attempts)) in
            (status_success total,
             Some (mkReport total passed (total - passed)
                     (if 0 <? total
                      then (Qsum (truthy_scores attempts) / inject_Z total)%Q
                      else 0%Q)
                     (Qmax_default0 (truthy_scores attempts)) latest))
      end).
  { unfold send_monthly_report_task. rewrite Huser, Hcrit, Hfilter.
    change (filter (in_month user first next) (quiz_attempts db)) with window.
    subst latest. destruct (order_by_date_taken_desc window) eqn:E;
      [reflexivity |].
    rewrite Hall. reflexivity. }
  split; [| split; [| split]].
  - intros Hempty. rewrite Htask.
    destruct (order_by_date_taken_desc window); [reflexivity |].
    rewrite Hempty in Hlen. discriminate.
  - intros Hne [a [Ha Hscore]]. rewrite Htask.
    destruct (order_by_date_taken_desc window) eqn:E.
    + destruct window; [contradiction | discriminate].
    + assert (Hex : existsb (fun a => match QuizAttempt.score a with
                                      | None => true
                                      | Some _ => false
                                      end) latest = true).
      { apply existsb_exists. exists a. split; [exact Ha |]. now rewrite Hscore. }
      now rewrite Hex.
  - intros Hne Hscored. rewrite Htask.
    destruct (order_by_date_taken_desc window) as [|x l] eqn:E.
    + destruct window; [contradiction | discriminate].
    + assert (Hex : existsb (fun a => match QuizAttempt.score a with
                                      | None => true
                                      | Some _ => false
                                      end) latest = false).
      { apply not_true_iff_false. intros H. apply existsb_exists in H.
        destruct H as [a [Ha Hs]]. specialize (Hscored a Ha).
        destruct (QuizAttempt.score a); [discriminate | now apply Hscored]. }
      rewrite Hex. cbv zeta. eexists. rewrite Hlen.
      split; [reflexivity |]. cbn [total_attempts passed_attempts
                                   failed_attempts recent].
      split; [reflexivity |]. split; [lia |]. split; [| reflexivity].
      pose proof (filter_length_le (attempt_passed db) (fun _ => true) (x :: l))
        as Hle.
      rewrite (filter_all (fun _ => true)) in Hle by reflexivity.
      rewrite <- Hlen. split; [lia |].
      pose proof (filter_partition_length (attempt_passed db) (x :: l)). lia.
  - intros a b Ha Hb Hnot.
    destruct (latest_rows 5 window) as [_ [_ [Hlate _]]].
    now apply Hlate.
Qed.

(** X14.  The synchronous report of main.py and the report task are the
    same computation: the former returns [True] exactly when the latter
    answers [success], and they mail the same report. *)
Theorem send_monthly_report_agrees (db : DB) (now : datetime) (user : User.t) :
  User_get db (User.id user) = Some user ->
  send_monthly_report db now user
  = match send_monthly_report_task db now (User.id user) with
    | (status_success _, mailed) => (true, mailed)
    | (_, _) => (false, None)
    end.
Proof.
  intros Huser. unfold send_monthly_report, send_monthly_report_task.
  rewrite Huser.
  destruct (monthly_criteria user (dt_year now) (dt_month now));
    [| reflexivity].
  destruct (Query_filter _ _); [| reflexivity].
  destruct (order_by_date_taken_desc _); [reflexivity |].
  destruct (forallb _ _); cbn [negb]; [| reflexivity].
  destruct (existsb _ _); reflexivity.
Qed.

Lemma send_monthly_report_december (db : DB) (now : datetime) (user : User.t) :
  dt_month now = 12 -> send_monthly_report db now user = (false, None).
Proof.
  intros Hm. unfold send_monthly_report, monthly_criteria. rewrite Hm. simpl.
  destruct (mk_datetime (dt_year now) 12 1); [| reflexivity].
  destruct (mk_datetime (dt_year now + 1) 1 1); reflexivity.
Qed.

(** X15.  In December the manual trigger and the automatic run of main.py
    report zero successes and mail nothing, whoever the users are and
    whatever they did. *)
Theorem december_reports_reach_nobody (db : DB) (now : datetime)
    (users : list User.t) :
  dt_month now = 12 ->
  report_each db now users = (0, [])
  /\ send_automatic_monthly_reports db now = (0, []).
Proof.
  intros Hm.
  assert (H : forall us, report_each db now us = (0, [])).
  { induction us as [|u us IH]; simpl; [reflexivity |].
    now rewrite IH, (send_monthly_report_december db now u Hm). }
  split; [apply H |]. unfold send_automatic_monthly_reports.
  destruct (dt_day now =? 1); [apply H | reflexivity].
Qed.

(** ** User administration *)

Lemma find_map_key {A : Type} (key : A -> Z) (g : A -> A) (k : Z)
    (l : list A) :
  (forall a, key (g a) = key a) ->
  find (fun r => key r =? k) (map g l)
  = option_map g (find (fun r => key r =? k) l).
Proof.
  intros Hg. induction l as [|x l IH]; simpl; [reflexivity |].
  rewrite Hg. destruct (key x =? k); [reflexivity | exact IH].
Qed.

(** X16.  Toggling the admin flag never touches a row of the acting admin,
    adds or removes no user and leaves attempts and responses alone; doing
    it twice for the same user gives back the database one started from. *)
Theorem toggle_admin_involutive (db db1 : DB) (current_user : User.t)
    (user_id : Z) (m1 : admin_message) :
  toggle_admin db current_user user_id = Ran (Some (db1, m1)) ->
  (forall u, In u (users db) -> User.id u = User.id current_user ->
             In u (users db1))
  /\ map User.id (users db1) = map User.id (users db)
  /\ quiz_attempts db1 = quiz_attempts db
  /\ quiz_responses db1 = quiz_responses db
  /\ exists m2, toggle_admin db1 current_user user_id = Ran (Some (db, m2)).
Proof.
  unfold toggle_admin, admin_required.
  destruct (User.is_admin current_user); [| discriminate].
  unfold toggle_admin_body.
  destruct (User_get db user_id) as [user|] eqn:Hget; [| discriminate].
  destruct (find_key User.id user_id _ _ Hget) as [Hid _].
  destruct (Z.eqb_spec (User.id user) (User.id current_user)) as [Eself | Hother];
    cbn [negb]; intros H; injection H as <- <-.
  - repeat split; auto. rewrite Hget.
    destruct (Z.eqb_spec (User.id user) (User.id current_user));
      [| contradiction].
    simpl. eauto.
  - assert (Hg : forall k u, User.id (flip_admin k u) = User.id u)
      by (intros k u; unfold flip_admin; destruct (User.id u =? k); reflexivity).
    split; [| split; [| split; [reflexivity | split; [reflexivity |]]]].
    + intros u Hu Hown. cbn [users set_users]. apply in_map_iff. exists u.
      split; [| exact Hu]. unfold flip_admin.
      destruct (Z.eqb_spec (User.id u) (User.id user)); [| reflexivity].
      congruence.
    + cbn [users set_users]. rewrite map_map. apply map_ext. apply Hg.
    + unfold User_get. cbn [users set_users].
      rewrite (find_map_key User.id (flip_admin (User.id user)) user_id
                 (users db) (Hg (User.id user))).
      unfold User_get in Hget. rewrite Hget. cbn [option_map]. rewrite Hg.
      destruct (Z.eqb_spec (User.id user) (User.id current_user));
        [contradiction |].
      cbn [negb]. eexists. f_equal. f_equal. f_equal.
      unfold set_users. cbn [users quizzes questions options quiz_attempts
                             quiz_responses].
      rewrite map_map.
      replace (map _ (users db)) with (users db); [now destruct db |].
      symmetry. rewrite <- (map_id (users db)) at 2. apply map_ext.
      intros u. unfold flip_admin at 2.
      destruct (Z.eqb_spec (User.id u) (User.id user)) as [E | E].
      * unfold flip_admin. cbn [User.id User.is_admin].
        apply Z.eqb_eq in E. rewrite E.
        destruct u as [i a]. cbn [User.id User.is_admin].
        now rewrite negb_involutive.
      * unfold flip_admin. apply Z.eqb_neq in E. now rewrite E.
Qed.

(** X17.  Deleting a user never removes a row of the acting admin.  For
    another user it removes that user's rows, every attempt of that user
    and every response of those attempts; with unique attempt keys the
    attempts of everybody else stay as they are.  The result is reached by
    a deletion step and a catalogue step of the attempt engine, so the
    engine's invariants survive it. *)
Theorem delete_user_cascades (db db1 : DB) (current_user : User.t)
    (user_id : Z) (m : admin_message) :
  delete_user db current_user user_id = Ran (Some (db1, m)) ->
  (forall u, In u (users db) -> User.id u = User.id current_user ->
             In u (users db1))
  /\ reachable db db1
  /\ (user_id <> User.id current_user ->
      (forall u, In u (users db1) <->
                 In u (users db) /\ User.id u <> user_id)
      /\ (forall a, In a (quiz_attempts db1) ->
                    In a (quiz_attempts db)
                    /\ QuizAttempt.user_id a <> user_id)
      /\ (forall r, In r (quiz_responses db1) ->
                    In r (quiz_responses db)
                    /\ ~ exists a, In a (quiz_attempts db)
                                   /\ QuizAttempt.user_id a = user_id
                                   /\ QuizResponse.attempt_id r
                                      = QuizAttempt.id a)
      /\ (unique_attempt_ids db ->
          quiz_attempts db1
          = filter (fun a => negb (QuizAttempt.user_id a =? user_id))
                   (quiz_attempts db))).
Proof.
  unfold delete_user, admin_required.
  destruct (User.is_admin current_user); [| discriminate].
  unfold delete_user_body.
  destruct (User_get db user_id) as [user|] eqn:Hget; [| discriminate].
  destruct (find_key User.id user_id _ _ Hget) as [Hid _].
  destruct (Z.eqb_spec (User.id user) (User.id current_user)) as [Eself | Hother];
    simpl; intros H; injection H as <- <-.
  - split; [auto |]. split; [constructor |]. intros Hne. congruence.
  - set (doomed := filter (fun a => QuizAttempt.user_id a =? User.id user)
                          (quiz_attempts db)).
    split; [| split].
    + intros u Hu Hown. apply filter_In. split; [exact Hu |].
      apply negb_true_iff. apply Z.eqb_neq. congruence.
    + eapply reach_step; [eapply reach_step; [apply reach_init |] |].
      * apply (step_delete db doomed).
      * exact (step_catalogue (delete_attempts doomed db)
                 (filter (fun u => negb (User.id u =? User.id user)) (users db))
                 (quizzes db) (questions db) (options db)).
    + intros _. rewrite Hid. unfold set_users, delete_attempts.
      cbn [users quiz_attempts quiz_responses].
      split; [| split; [| split]].
      * intros u. rewrite filter_In, negb_true_iff, Z.eqb_neq. tauto.
      * intros a Ha. apply filter_In in Ha. destruct Ha as [Ha Hn].
        split; [exact Ha |]. intros Hu.
        apply negb_true_iff in Hn. apply not_true_iff_false in Hn. apply Hn.
        apply mem_In, in_map. subst doomed. apply filter_In.
        split; [exact Ha |]. apply Z.eqb_eq. congruence.
      * intros r Hr. apply filter_In in Hr. destruct Hr as [Hr Hn].
        split; [exact Hr |]. intros [a [Ha [Hu E]]].
        apply negb_true_iff in Hn. apply not_true_iff_false in Hn. apply Hn.
        apply mem_In. rewrite E. apply in_map. subst doomed. apply filter_In.
        split; [exact Ha |]. apply Z.eqb_eq. congruence.
      * intros Hnd. subst doomed. rewrite delete_selected by exact Hnd.
        now rewrite Hid.
Qed.

(** ** Mail *)

Lemma send_each_spec (delivers : mailer) (users : list User.t) :
  forall sent failed,
    send_each delivers users sent failed
    = (sent ++ map User.id (filter (ordinary_and delivers) users),
       failed ++ map User.id
                   (filter (ordinary_and (fun r => negb (delivers r))) users)).
Proof.
  unfold ordinary_and.
  induction users as [|u users IH]; intros sent failed; simpl.
  - now rewrite !app_nil_r.
  - destruct (User.is_admin u); simpl; [apply IH |].
    destruct (delivers (User.id u)); simpl; rewrite IH, <- app_assoc;
      reflexivity.
Qed.

(** X18.  The notification task serves every non-admin user among the
    requested ones whose mail goes through, lists the others as failed, and
    counts both: a failed send does not stop the batch, admins get no mail,
    and sent plus failed is the number of non-admin recipients. *)
Theorem notification_task_accounting (delivers : mailer) (db : DB)
    (quiz_id : Z) (user_ids : list Z) (quiz : Quiz.t) :
  Quiz_get db quiz_id = Some quiz ->
  let recipients :=
    filter (fun u => negb (User.is_admin u)) (users_in db user_ids) in
  let served :=
    map User.id (filter (fun u => delivers (User.id u)) recipients) in
  let failed :=
    map User.id (filter (fun u => negb (delivers (User.id u))) recipients) in
  send_quiz_notification_task delivers db quiz_id user_ids
  = (mail_success (Z.of_nat (length served)) (Z.of_nat (length failed)) failed,
     served)
  /\ Z.of_nat (length served) + Z.of_nat (length failed)
     = Z.of_nat (length recipients)
  /\ (forall r, In r served \/ In r failed ->
                In r user_ids
                /\ exists u, In u (users db) /\ User.id u = r
                             /\ User.is_admin u = false).
Proof.
  intros Hquiz recipients served failed.
  unfold send_quiz_notification_task. rewrite Hquiz, send_each_spec.
  unfold ordinary_and. simpl.
  subst served failed recipients. rewrite !filter_filter.
  split; [reflexivity |]. split.
  - rewrite !length_map.
    pose proof (filter_partition_length
                  (fun u => delivers (User.id u))
                  (filter (fun u => negb (User.is_admin u))
                          (users_in db user_ids))) as Hp.
    rewrite !filter_filter in Hp. lia.
  - intros r Hr.
    assert (Hu : exists u, In u (users_in db user_ids)
                           /\ User.id u = r /\ User.is_admin u = false).
    { destruct Hr as [Hr | Hr]; apply in_map_iff in Hr;
        destruct Hr as [u [E Hu]]; apply filter_In in Hu;
        destruct Hu as [Hu Hp]; apply andb_true_iff in Hp;
        destruct Hp as [Hp _]; apply negb_true_iff in Hp; eauto. }
    destruct Hu as [u [Hu [E Hadm]]]. unfold users_in in Hu.
    apply filter_In in Hu. destruct Hu as [Hu Hmem].
    apply mem_In in Hmem. split; [congruence | eauto].
Qed.

(** X19.  The notification of main.py wraps its whole loop in one [try]:
    at the first non-admin user whose mail fails it returns [False], the
    users after that one get nothing, and those before keep what they got.
    The task's loop, on the same list, goes on to the users after. *)
Theorem notification_stops_at_first_failure (delivers : mailer)
    (quiz : Quiz.t) (before after : list User.t) (u : User.t) :
  User.is_admin u = false ->
  delivers (User.id u) = false ->
  (forall x, In x before -> User.is_admin x = false ->
             delivers (User.id x) = true) ->
  send_quiz_notification delivers quiz (before ++ u :: after)
  = (false, map User.id (filter (fun x => negb (User.is_admin x)) before))
  /\ fst (send_each delivers (before ++ u :: after) [] [])
     = map User.id (filter (fun x => negb (User.is_admin x)) before)
       ++ map User.id (filter (ordinary_and delivers) after).
Proof.
  intros Hu Hfail Hbefore.
  assert (Hloop : forall sent,
            send_all_or_stop delivers (before ++ u :: after) sent
            = (false,
               sent ++ map User.id
                         (filter (fun x => negb (User.is_admin x)) before))).
  { induction before as [|x before IH]; intros sent; simpl.
    - now rewrite Hu, Hfail, app_nil_r.
    - assert (Hrest : forall y, In y before -> User.is_admin y = false ->
                                delivers (User.id y) = true)
        by (intros y Hy; apply Hbefore; now right).
      destruct (User.is_admin x) eqn:Hx; simpl; [now apply IH |].
      rewrite (Hbefore x (or_introl eq_refl) Hx), (IH Hrest), <- app_assoc.
      reflexivity. }
  split; [apply (Hloop []) |].
  rewrite send_each_spec. cbn [fst app]. rewrite filter_app, map_app.
  f_equal.
  - f_equal. apply filter_ext_in. intros x Hx. unfold ordinary_and.
    destruct (User.is_admin x) eqn:Hadm; [reflexivity |].
    now rewrite (Hbefore x Hx Hadm).
  - simpl. unfold ordinary_and at 1. now rewrite Hu, Hfail.
Qed.

(** ** Reminders *)

Lemma upcoming_iff (db : DB) (now : datetime) (quiz : Quiz.t) :
  In quiz (upcoming_quizzes db now) <->
  In quiz (quizzes db) /\ Quiz.is_scheduled quiz = true
  /\ exists s, Quiz.start_datetime quiz = Some s
               /\ now <= s <= now + HOUR.
Proof.
  unfold upcoming_quizzes, timedelta_hours. rewrite filter_In.
  rewrite andb_true_iff, Bool.eqb_true_iff.
  destruct (Quiz.start_datetime quiz) as [s|].
  - rewrite andb_true_iff, !Z.leb_le. split.
    + intros [Hq [Hs Hr]]. repeat split; auto. exists s. split; [auto | lia].
    + intros [Hq [Hs [s' [E Hr]]]]. injection E as <-. repeat split; auto; lia.
  - split; [intros [_ [_ H]]; discriminate |].
    intros [_ [_ [s [E _]]]]. discriminate.
Qed.

(** X20.  Nothing records that a reminder was sent.  With the job run on a
    quarter-hour grid (any origin [t0]), a scheduled quiz is selected, and
    a reminder task for it queued for all non-admin users, by each of the
    four runs that precede its start most closely. *)
Theorem reminder_repeats (db : DB) (quiz : Quiz.t) (s t0 i : Z) :
  In quiz (quizzes db) ->
  Quiz.is_scheduled quiz = true ->
  Quiz.start_datetime quiz = Some s ->
  0 <= i <= 3 ->
  let quarter := 15 * MINUTE in
  let run := t0 + ((s - t0) / quarter - i) * quarter in
  run <= s
  /\ In quiz (upcoming_quizzes db run)
  /\ In (Quiz.id quiz,
         map User.id (filter (fun u => negb (User.is_admin u)) (users db)))
        (fst (send_scheduled_reminders db run)).
Proof.
  intros Hq Hsch Hstart Hi quarter run.
  assert (Hrun : run <= s <= run + HOUR).
  { subst run quarter. unfold HOUR, MINUTE, SECOND.
    pose proof (Z.div_mod (s - t0) (15 * (60 * 1000000)) ltac:(lia)) as E.
    pose proof (Z.mod_pos_bound (s - t0) (15 * (60 * 1000000)) ltac:(lia)) as B.
    lia. }
  assert (Hup : In quiz (upcoming_quizzes db run)).
  { apply upcoming_iff. repeat split; auto. exists s. now split. }
  split; [lia |]. split; [exact Hup |].
  unfold send_scheduled_reminders. cbn [fst].
  apply in_map_iff. exists quiz. now split.
Qed.

Lemma find_unique_key {A : Type} (key : A -> Z) (l : list A) (a : A) :
  NoDup (map key l) -> In a l -> find (fun r => key r =? key a) l = Some a.
Proof.
  intros Hnd Hin.
  destruct (find (fun r => key r =? key a) l) as [b|] eqn:E.
  - destruct (find_key key (key a) l b E) as [Hk Hb].
    f_equal. eapply unique_key; eauto.
  - exfalso. apply (find_none _ _ E) in Hin. now rewrite Z.eqb_refl in Hin.
Qed.

(** X21.  The reminder task formats the start time without checking it:
    called for a quiz without start time it answers [error] and mails
    nothing, where the notification task would go on.  The scheduler never
    queues such a call: with unique quiz keys, the reminder task of every
    quiz it selects answers [success]. *)
Theorem reminder_task_needs_start (delivers : mailer) (db : DB)
    (user_ids : list Z) :
  (forall quiz_id quiz,
     Quiz_get db quiz_id = Some quiz ->
     Quiz.start_datetime quiz = None ->
     send_quiz_reminder_task delivers db quiz_id user_ids = (mail_error, [])
     /\ exists sent failed l served,
          send_quiz_notification_task delivers db quiz_id user_ids
          = (mail_success sent failed l, served))
  /\ (NoDup (map Quiz.id (quizzes db)) ->
      forall now quiz,
        In quiz (upcoming_quizzes db now) ->
        exists sent failed l served,
          send_quiz_reminder_task delivers db (Quiz.id quiz) user_ids
          = (mail_success sent failed l, served)).
Proof.
  split.
  - intros quiz_id quiz Hget Hstart.
    unfold send_quiz_reminder_task, send_quiz_notification_task.
    rewrite Hget, Hstart. split; [reflexivity |].
    destruct (send_each _ _ _ _) as [sent failed]. eauto.
  - intros Hnd now quiz Hup. apply upcoming_iff in Hup.
    destruct Hup as [Hq [_ [s [Hs _]]]].
    unfold send_quiz_reminder_task, Quiz_get.
    rewrite (find_unique_key Quiz.id (quizzes db) quiz Hnd Hq), Hs.
    destruct (send_each _ _ _ _) as [sent failed]. eauto.
Qed.

(** ** Export rows *)

Lemma performance_statuses_fail (db : DB) (attempts : list QuizAttempt.t) :
  performance_statuses db attempts = None <->
  exists a, In a attempts /\ joined db a = true
            /\ QuizAttempt.score a = None.
Proof.
  induction attempts as [|x rest IH]; simpl.
  - split; [discriminate | intros [a [[] _]]].
  - assert (Hskip : joined db x = false ->
              ((exists a, In a rest /\ joined db a = true
                          /\ QuizAttempt.score a = None)
               <-> exists a, (x = a \/ In a rest) /\ joined db a = true
                             /\ QuizAttempt.score a = None)).
    { intros Hx. split.
      - intros [a [Ha H]]. exists a. split; auto.
      - intros [a [[<- | Ha] [Hj Hs]]]; [congruence | eauto]. }
    destruct (Quiz_get db (QuizAttempt.quiz_id x)) as [quiz|] eqn:Eq.
    + destruct (joined db x) eqn:Ej.
      * unfold performance_status.
        destruct (QuizAttempt.score x) as [s|] eqn:Es.
        -- destruct (performance_statuses db rest) as [st|].
           ++ split; [discriminate |].
              intros [a [[<- | Ha] [Hj Hs]]]; [congruence |].
              assert (Hex : exists a, In a rest /\ joined db a = true
                                      /\ QuizAttempt.score a = None) by eauto.
              apply IH in Hex. discriminate.
           ++ split; [| reflexivity]. intros _.
              destruct (proj1 IH eq_refl) as [a [Ha H]]. exists a.
              split; auto.
        -- split; [| reflexivity]. intros _. exists x.
           split; [now left | auto].
      * rewrite IH. now apply Hskip.
    + rewrite IH. apply Hskip. unfold joined, has_quiz. now rewrite Eq.
Qed.

(** X22.  The admin export compares the raw score with the threshold.  On
    attempts that have a score it gives the status the user-side exports
    give; but on a database where scores go with completion it raises, and
    the whole export fails, exactly when some attempt the join keeps is
    still in progress, where the user-side exports print INCOMPLETE and
    N/A.  The score 0 of an abandoned attempt is printed N/A as well. *)
Theorem admin_export_fails_on_in_progress (db : DB) :
  scored_iff_completed db ->
  (performance_statuses db (quiz_attempts db) = None <->
   exists a, In a (quiz_attempts db) /\ joined db a = true
             /\ QuizAttempt.is_completed a = false)
  /\ (forall a quiz status,
        performance_status a quiz = Some status ->
        history_status a quiz = status)
  /\ (forall a quiz,
        In a (quiz_attempts db) -> QuizAttempt.is_completed a = false ->
        performance_status a quiz = None
        /\ history_status a quiz = INCOMPLETE
        /\ score_cell a = None)
  /\ (forall a, score_cell (abandon a) = None).
Proof.
  intros Hinv.
  assert (Hnone : forall a, In a (quiz_attempts db) ->
            (QuizAttempt.score a = None <-> QuizAttempt.is_completed a = false)).
  { intros a Ha. destruct (Hinv a Ha) as [H1 H2].
    destruct (QuizAttempt.score a), (QuizAttempt.is_completed a);
      split; intros H; try reflexivity; try discriminate.
    - exfalso. assert (Hc : false = true) by (apply H2; discriminate).
      discriminate.
    - exfalso. now apply (H1 eq_refl). }
  split; [| split; [| split]].
  - rewrite performance_statuses_fail. split; intros [a [Ha [Hq H]]];
      exists a; repeat split; auto; now apply (Hnone a Ha).
  - intros a quiz status. unfold performance_status, history_status,
      QuizAttempt.passed.
    destruct (QuizAttempt.score a); [| discriminate].
    intros H. now injection H as <-.
  - intros a quiz Ha Hinc. pose proof (proj2 (Hnone a Ha) Hinc) as Hs.
    unfold performance_status, history_status, QuizAttempt.passed, score_cell.
    now rewrite Hs, Hinc.
  - reflexivity.
Qed.

(** ** The rate limiter *)




(** X24.  A request that is refused leaves the server's state untouched;
    it is refused exactly when the client's counter is alive, holds an
    integer, and that integer has reached the maximum, and then
    [get_remaining] answers 0. *)
Theorem rate_limit_refusal (s : RateLimit.store) (now : Z) (key : String.string)
    (max_requests window_seconds : Z) :
  (fst (RateLimit.is_allowed s now key max_requests window_seconds) = false
   <-> exists count,
         RateLimit.GET s now (String.append RateLimit.prefix key)
         = Some (RateLimit.Integer count)
         /\ max_requests <= count)
  /\ (fst (RateLimit.is_allowed s now key max_requests window_seconds) = false
      -> snd (RateLimit.is_allowed s now key max_requests window_seconds) = s
         /\ RateLimit.get_remaining s now key max_requests = 0).
Proof.
  unfold RateLimit.is_allowed, RateLimit.get_remaining.
  destruct (RateLimit.GET s now (String.append RateLimit.prefix key))
    as [[count|]|] eqn:Hget.
  - destruct (Z.ltb_spec count max_requests) as [Hlt | Hge].
    + destruct (RateLimit.INCR s now _); cbn [fst snd];
        (split; [split; [discriminate |] | discriminate]);
        intros [c [E Hc]]; injection E as <-; lia.
    + cbn [fst snd]. split; [split; [eauto |] |].
      * reflexivity.
      * intros _. split; [reflexivity | lia].
  - cbn [fst]. split; [split; [discriminate |] | discriminate].
    intros [c [E _]]. discriminate.
  - destruct (RateLimit.SETEX s now _ window_seconds _); cbn [fst];
      (split; [split; [discriminate |] | discriminate]);
      intros [c [E _]]; discriminate.
Qed.

(** X25.  The limiter fails open.  With a window of zero or fewer seconds
    the server rejects the counter's creation, the exception is swallowed,
    and every request of a client without counter is let through, the
    server's state never changing. *)
Theorem non_positive_window_disables (s : RateLimit.store)
    (key : String.string) (max_requests window_seconds : Z)
    (instants : list Z) :
  window_seconds <= 0 ->
  s (String.append RateLimit.prefix key) = None ->
  RateLimit.serve s key max_requests window_seconds instants
  = (map (fun _ => true) instants, s).
Proof.
  intros Hw Hs. induction instants as [|t rest IH]; [reflexivity |].
  cbn [RateLimit.serve map].
  unfold RateLimit.is_allowed, RateLimit.GET, RateLimit.SETEX.
  rewrite Hs. destruct (Z.ltb_spec 0 window_seconds); [lia |].
  now rewrite IH.
Qed.

(** ** The further theorems at concrete inputs *)


Lemma score_present_iff_completed_witness :
  let submitted :=
    db_after (submit_quiz Sample.db_in_progress Sample.taking Sample.alice
                          Sample.three_of_four 1) in
  scored_iff_completed Sample.db_in_progress
  /\ reachable Sample.db_in_progress submitted
  /\ scored_iff_completed submitted.
Proof.
  intros submitted.
  assert (Hinv : scored_iff_completed Sample.db_in_progress).
  { intros a [<- | []]. simpl. split; [discriminate | congruence]. }
  assert (Hreach : reachable Sample.db_in_progress submitted).
  { eapply reach_step; [apply reach_init | apply step_submit]. }
  split; [exact Hinv |]. split; [exact Hreach |].
  exact (score_present_iff_completed Sample.db_in_progress submitted
           Hinv Hreach).
Defined.

Lemma start_submit_no_retake_witness :
  let t1 := Sample.instant 2025 11 3 10 0 0 in
  let t2 := Sample.instant 2025 11 3 10 20 0 in
  let o1 := start_quiz_attempt Sample.catalogue Sample.fresh Sample.alice
                               t1 t1 1 in
  let o2 := submit_quiz (db_after o1) (session_after o1) Sample.alice
                        Sample.three_of_four 1 in
  let o3 := start_quiz_attempt (db_after o2) (session_after o2) Sample.alice
                               t2 t2 1 in
  User.is_admin Sample.alice = false
  /\ Quiz_get Sample.catalogue 1 = Some Sample.algebra
  /\ Quiz.is_available Sample.algebra t1 = true
  /\ Quiz.is_available Sample.algebra t2 = true
  /\ attempts_by (User.id Sample.alice) 1 true (quiz_attempts Sample.catalogue)
     = []
  /\ (forall question,
        In question (Quiz_questions Sample.catalogue Sample.algebra) ->
        well_formed Sample.catalogue Sample.three_of_four question)
  /\ exists attempt_id,
       resp o2 = Redirect (quiz_results attempt_id)
       /\ db_after o3 = db_after o2
       /\ resp o3 = Redirect (quiz_results attempt_id).
Proof.
  intros t1 t2 o1 o2 o3.
  assert (Hwf : forall question,
            In question (Quiz_questions Sample.catalogue Sample.algebra) ->
            well_formed Sample.catalogue Sample.three_of_four question)
    by (intros question H; each_question H).
  do 5 (split; [reflexivity |]). split; [exact Hwf |].
  destruct (start_submit_no_retake Sample.catalogue Sample.fresh Sample.alice
              t1 t1 t2 t2 Sample.three_of_four 1 Sample.algebra
              eq_refl eq_refl eq_refl eq_refl eq_refl Hwf)
    as [attempt_id [_ [_ [H2 [_ [_ [_ [H3 H4]]]]]]]].
  exists attempt_id. split; [exact H2 |]. split; [exact H3 | exact H4].
Defined.

Lemma resubmission_rejected_witness :
  let o := submit_quiz Sample.db_in_progress Sample.taking Sample.alice
                       Sample.three_of_four 1 in
  let o' := submit_quiz (db_after o) (session_after o) Sample.alice
                        Sample.foreign 1 in
  resp o = Redirect (quiz_results 1)
  /\ db_after o' = db_after o
  /\ flashed o' = [(Invalid_quiz_attempt, danger)].
Proof.
  intros o o'.
  assert (Hresp : resp o = Redirect (quiz_results 1)) by reflexivity.
  split; [exact Hresp |].
  destruct (resubmission_rejected Sample.db_in_progress Sample.taking
              Sample.alice Sample.three_of_four 1 1 Sample.foreign 1 Hresp)
    as [Hdb [_ Hflash]].
  split; [exact Hdb |].
  apply Hflash. discriminate.
Defined.

Lemma abandonment_overwritten_witness :
  let t := Sample.instant 2025 11 3 11 0 0 in
  let o1 := take_quiz Sample.db_in_progress Sample.taking Sample.alice t 1 in
  let o2 := submit_quiz (db_after o1) (session_after o1) Sample.alice
                        Sample.three_of_four 1 in
  User.is_admin Sample.alice = false
  /\ Quiz_get Sample.db_in_progress 1 = Some Sample.algebra
  /\ Quiz.is_available Sample.algebra t = true
  /\ attempts_by 2 1 true (quiz_attempts Sample.db_in_progress) = []
  /\ attempts_by 2 1 false (quiz_attempts Sample.db_in_progress)
     = [Sample.in_progress]
  /\ QuizAttempt_get Sample.db_in_progress 1 = Some Sample.in_progress
  /\ current_attempt_id Sample.taking = Some 1
  /\ option_map QuizAttempt.score (QuizAttempt_get (db_after o1) 1)
     = Some (Some 0%Q)
  /\ exists s,
       option_map QuizAttempt.score (QuizAttempt_get (db_after o2) 1)
       = Some (Some s)
       /\ (s == 75)%Q.
Proof.
  intros t o1 o2.
  assert (Hwf : forall x,
            In x (Quiz_questions Sample.db_in_progress Sample.algebra) ->
            well_formed Sample.db_in_progress Sample.three_of_four x)
    by (intros x H; each_question H).
  assert (Hnz : QuizAttempt.id Sample.in_progress <> 0) by discriminate.
  do 7 (split; [reflexivity |]).
  destruct (abandonment_overwritten Sample.db_in_progress Sample.taking
              Sample.alice t 1 Sample.algebra Sample.in_progress []
              (Question.mk 1 1)
              [Question.mk 2 1; Question.mk 3 1; Question.mk 4 1]
              Sample.three_of_four
              eq_refl eq_refl eq_refl eq_refl eq_refl eq_refl eq_refl eq_refl
              Hnz Hwf) as [H1 [_ H2]].
  split.
  - fold o1 in H1. change (QuizAttempt.id Sample.in_progress) with 1 in H1.
    now rewrite H1.
  - fold o1 o2 in H2. change (QuizAttempt.id Sample.in_progress) with 1 in H2.
    rewrite H2. eexists. split; [reflexivity |]. reflexivity.
Defined.

Lemma cleanup_idempotent_witness :
  let now := Sample.instant 2025 11 4 10 0 0 in
  let db1 := fst (cleanup_incomplete_attempts_task (stale_db now) now) in
  now - HOUR <= now
  /\ snd (cleanup_incomplete_attempts_task (stale_db now) now) = 1%nat
  /\ cleanup_incomplete_attempts_task db1 (now - HOUR) = (db1, 0%nat).
Proof.
  intros now db1.
  assert (Hle : now - HOUR <= now) by (unfold HOUR, SECOND; lia).
  split; [exact Hle |]. split; [reflexivity |].
  exact (cleanup_idempotent (stale_db now) now (now - HOUR) Hle).
Defined.

Lemma monthly_report_before_december_witness :
  let now := Sample.instant 2025 11 1 9 0 0 in
  let first := Sample.instant 2025 11 1 0 0 0 in
  let next := Sample.instant 2025 12 1 0 0 0 in
  User_get Sample.db_november 2 = Some Sample.alice
  /\ dt_month now < 12
  /\ mk_datetime (dt_year now) (dt_month now) 1 = Some first
  /\ mk_datetime (dt_year now) (dt_month now + 1) 1 = Some next
  /\ filter (in_month Sample.alice first next)
            (quiz_attempts Sample.db_november)
     = [Sample.november_attempt]
  /\ exists r,
       send_monthly_report_task Sample.db_november now 2
       = (status_success 1, Some r)
       /\ total_attempts r = 1
       /\ recent r = [Sample.november_attempt].
Proof.
  intros now first next.
  assert (Hm : dt_month now < 12) by reflexivity.
  assert (Hquiz : forall a,
            In a (filter (in_month Sample.alice first next)
                         (quiz_attempts Sample.db_november)) ->
            has_quiz Sample.db_november a = true)
    by (intros a [<- | []]; reflexivity).
  split; [reflexivity |]. split; [exact Hm |].
  do 3 (split; [reflexivity |]).
  destruct (monthly_report_before_december Sample.db_november now 2
              Sample.alice first next eq_refl Hm eq_refl eq_refl Hquiz)
    as [_ [_ [Hsuccess _]]].
  destruct Hsuccess as [r [Htask [Htotal [_ [_ Hrecent]]]]].
  - discriminate.
  - intros a [<- | []]. discriminate.
  - exists r. split; [exact Htask |]. split; [exact Htotal | exact Hrecent].
Defined.

Lemma send_monthly_report_agrees_witness :
  let now := Sample.instant 2025 11 1 9 0 0 in
  User_get Sample.db_november (User.id Sample.alice) = Some Sample.alice
  /\ fst (send_monthly_report Sample.db_november now Sample.alice) = true
  /\ snd (send_monthly_report Sample.db_november now Sample.alice)
     = snd (send_monthly_report_task Sample.db_november now 2).
Proof.
  intros now. split; [reflexivity |].
  rewrite (send_monthly_report_agrees Sample.db_november now Sample.alice
             eq_refl).
  split; reflexivity.
Defined.

Lemma december_reports_reach_nobody_witness :
  let now := Sample.instant 2025 12 1 9 0 0 in
  dt_month now = 12
  /\ dt_day now = 1
  /\ report_each Sample.db_december now [Sample.alice] = (0, [])
  /\ send_automatic_monthly_reports Sample.db_december now = (0, []).
Proof.
  intros now. split; [reflexivity |]. split; [reflexivity |].
  exact (december_reports_reach_nobody Sample.db_december now [Sample.alice]
           eq_refl).
Defined.

Lemma toggle_admin_involutive_witness :
  let db1 := set_users two_users [Sample.admin; Sample.alice; User.mk 3 true] in
  toggle_admin two_users Sample.admin 3 = Ran (Some (db1, Admin_status_granted))
  /\ exists m2, toggle_admin db1 Sample.admin 3 = Ran (Some (two_users, m2)).
Proof.
  intros db1.
  assert (H1 : toggle_admin two_users Sample.admin 3
               = Ran (Some (db1, Admin_status_granted))) by reflexivity.
  split; [exact H1 |].
  destruct (toggle_admin_involutive two_users db1 Sample.admin 3
              Admin_status_granted H1) as [_ [_ [_ [_ H2]]]].
  exact H2.
Defined.

Lemma delete_user_cascades_witness :
  let db1 :=
    set_quiz_responses
      (set_quiz_attempts
         (set_users Sample.catalogue [Sample.admin; bob])
         [QuizAttempt.mk 2 3 1 (Sample.instant 2025 11 2 9 0 0) (Some 50%Q) true])
      [QuizResponse.mk 2 2 1 2; QuizResponse.mk 3 2 2 3] in
  delete_user two_users Sample.admin 2 = Ran (Some (db1, User_deleted))
  /\ 2 <> User.id Sample.admin
  /\ unique_attempt_ids two_users
  /\ reachable two_users db1
  /\ quiz_attempts db1
     = filter (fun a => negb (QuizAttempt.user_id a =? 2))
              (quiz_attempts two_users).
Proof.
  intros db1.
  assert (H1 : delete_user two_users Sample.admin 2
               = Ran (Some (db1, User_deleted))) by reflexivity.
  assert (Hne : 2 <> User.id Sample.admin) by discriminate.
  assert (Hnd : unique_attempt_ids two_users).
  { unfold unique_attempt_ids. simpl.
    repeat constructor; simpl; intuition discriminate. }
  split; [exact H1 |]. split; [exact Hne |]. split; [exact Hnd |].
  destruct (delete_user_cascades two_users db1 Sample.admin 2 User_deleted H1)
    as [_ [Hreach Hother]].
  split; [exact Hreach |].
  destruct (Hother Hne) as [_ [_ [_ Hexact]]]. exact (Hexact Hnd).
Defined.

Lemma notification_task_accounting_witness :
  Quiz_get two_users 1 = Some Sample.algebra
  /\ send_quiz_notification_task refuses_alice two_users 1 [1; 2; 3]
     = (mail_success 1 1 [2], [3]).
Proof.
  split; [reflexivity |].
  rewrite (proj1 (notification_task_accounting refuses_alice two_users 1
                    [1; 2; 3] Sample.algebra eq_refl)).
  reflexivity.
Defined.

Lemma notification_stops_at_first_failure_witness :
  User.is_admin Sample.alice = false
  /\ refuses_alice (User.id Sample.alice) = false
  /\ send_quiz_notification refuses_alice Sample.algebra
       ([Sample.admin] ++ Sample.alice :: [bob])
     = (false, [])
  /\ fst (send_each refuses_alice ([Sample.admin] ++ Sample.alice :: [bob])
                    [] [])
     = [3].
Proof.
  assert (Hbefore : forall x, In x [Sample.admin] ->
                              User.is_admin x = false ->
                              refuses_alice (User.id x) = true)
    by (intros x [<- | []]; discriminate).
  split; [reflexivity |]. split; [reflexivity |].
  destruct (notification_stops_at_first_failure refuses_alice Sample.algebra
              [Sample.admin] [bob] Sample.alice eq_refl eq_refl Hbefore)
    as [H1 H2].
  split; [rewrite H1 | rewrite H2]; reflexivity.
Defined.

Lemma reminder_repeats_witness :
  let s := Sample.instant 2025 11 10 9 0 0 in
  let run := Sample.instant 2025 11 10 8 15 0 in
  In Sample.exam (quizzes Sample.catalogue)
  /\ Quiz.is_scheduled Sample.exam = true
  /\ Quiz.start_datetime Sample.exam = Some s
  /\ 0 <= 3 <= 3
  /\ 0 + ((s - 0) / (15 * MINUTE) - 3) * (15 * MINUTE) = run
  /\ In (3, [2]) (fst (send_scheduled_reminders Sample.catalogue run)).
Proof.
  intros s run.
  assert (Hin : In Sample.exam (quizzes Sample.catalogue))
    by (right; right; now left).
  assert (Hi : 0 <= 3 <= 3) by lia.
  split; [exact Hin |]. do 2 (split; [reflexivity |]).
  split; [exact Hi |]. split; [reflexivity |].
  exact (proj2 (proj2 (reminder_repeats Sample.catalogue Sample.exam s 0 3
                         Hin eq_refl eq_refl Hi))).
Defined.

Lemma admin_export_fails_on_in_progress_witness :
  scored_iff_completed Sample.db_in_progress
  /\ performance_statuses Sample.db_in_progress
       (quiz_attempts Sample.db_in_progress) = None
  /\ history_status Sample.in_progress Sample.algebra = INCOMPLETE.
Proof.
  assert (Hinv : scored_iff_completed Sample.db_in_progress).
  { intros a [<- | []]. simpl. split; [discriminate | congruence]. }
  split; [exact Hinv |].
  destruct (admin_export_fails_on_in_progress Sample.db_in_progress Hinv)
    as [Hfail [_ [Hrow _]]].
  split.
  - apply Hfail. exists Sample.in_progress.
    split; [now left |]. split; reflexivity.
  - exact (proj1 (proj2 (Hrow Sample.in_progress Sample.algebra
                              (or_introl eq_refl) eq_refl))).
Defined.


Lemma non_positive_window_disables_witness :
  0 <= 0
  /\ RateLimit.empty (String.append RateLimit.prefix String.EmptyString) = None
  /\ fst (RateLimit.serve RateLimit.empty String.EmptyString 1 0 [1; 2; 3])
     = [true; true; true].
Proof.
  assert (Hw : 0 <= 0) by lia.
  split; [exact Hw |]. split; [reflexivity |].
  rewrite (non_positive_window_disables RateLimit.empty String.EmptyString
             1 0 [1; 2; 3] Hw eq_refl).
  reflexivity.
Defined.

Example window_reopens_after_expiry :
  fst (RateLimit.serve RateLimit.empty String.EmptyString 1 60
                       [100; 101; 159; 160; 161])
  = [true; false; false; true; false].
Proof. reflexivity. Qed.
